(** * NeuroOS command pipeline: intent classification and task dispatch

    A shallow embedding of [ai/voice_interface.py] and [ai/orchestrator.py]
    together with the three collaborator classes of [core/] that the
    orchestrator's handlers call, and the properties of the pipeline proved
    over that embedding.

    Conventions of the embedding:
    - Python [str] is [string]; the case and whitespace functions act on the
      ASCII range and leave every other character unchanged.
    - A Python [dict] literal is an association list in insertion order; all
      literals of the program have distinct keys.
    - A call that may raise returns in the [exn] monad; [try_except] is the
      [try: ... except Exception as e: ...] statement.  Only exceptions
      derived from [Exception] are modelled.
    - Everything the program reads from the operating system, the network or
      the clock during one call is a field of a [World] record. *)

From Stdlib Require Import Ascii String QArith_base.
From stdpp Require Import base list sorting strings pretty.

Local Open Scope string_scope.

(** ** Python values and exceptions *)

Module Py.

#[warnings="-register-all"] Inductive pyval : Type :=
| VNone
| VBool (b : bool)
| VInt (z : Z)
| VFloat (q : Q)
| VStr (s : string)
| VList (l : list pyval)
| VDict (d : list (string * pyval)).

Definition pydict : Type := list (string * pyval).

(** [d.get(k)] / the lookup half of [d[k]]: first binding of [k]. *)
Fixpoint dict_get (k : string) (d : pydict) : option pyval :=
  match d with
  | [] => None
  | (k', v) :: d' => if String.eqb k k' then Some v else dict_get k d'
  end.

(** Truth value of an object, as tested by [if x] and [x if c else y]. *)
Definition truthy (v : pyval) : bool :=
  match v with
  | VNone => false
  | VBool b => b
  | VInt z => negb (Z.eqb z 0)
  | VFloat q => negb (Z.eqb (Qnum q) 0)
  | VStr s => negb (String.eqb s "")
  | VList l => match l with [] => false | _ => true end
  | VDict d => match d with [] => false | _ => true end
  end.

(** Exceptions below [Exception], by what [str(e)] prints. *)
Inductive pyexn : Type :=
| KeyError (key : string)
| IndexError (msg : string)
| ValueError (msg : string)
| TypeError (msg : string)
| AttributeError (msg : string)
| ImportError (msg : string)
| OSError (msg : string)
| Exception (msg : string).

Definition quote : string := String (Ascii.ascii_of_nat 39) "".

(** [str(e)].  [str(KeyError(k))] is the repr of the key. *)
Definition str (e : pyexn) : string :=
  match e with
  | KeyError k => quote +:+ k +:+ quote
  | IndexError m | ValueError m | TypeError m | AttributeError m
  | ImportError m | OSError m | Exception m => m
  end.

Inductive exn (A : Type) : Type :=
| Ret (a : A)
| Raise (e : pyexn).
Arguments Ret {A} a.
Arguments Raise {A} e.

#[export] Instance exn_ret : MRet exn := fun A a => Ret a.
#[export] Instance exn_bind : MBind exn := fun A B f m =>
  match m with
  | Ret a => f a
  | Raise e => Raise e
  end.

(** [try: body  except Exception as e: handler e]. *)
Definition try_except {A : Type} (body : exn A) (handler : pyexn -> exn A) : exn A :=
  match body with
  | Ret a => Ret a
  | Raise e => handler e
  end.

(** [d[k]]: raises [KeyError(k)] when the key is absent. *)
Definition dict_item (d : pydict) (k : string) : exn pyval :=
  match dict_get k d with
  | Some v => Ret v
  | None => Raise (KeyError k)
  end.

(** [l[i]] for a non-negative index. *)
Definition list_item {A : Type} (l : list A) (i : nat) : exn A :=
  match l !! i with
  | Some x => Ret x
  | None => Raise (IndexError "list index out of range")
  end.

(** *** [str] methods *)

Definition is_upper (c : ascii) : bool :=
  let n := Ascii.nat_of_ascii c in (65 <=? n)%nat && (n <=? 90)%nat.

Definition is_lower (c : ascii) : bool :=
  let n := Ascii.nat_of_ascii c in (97 <=? n)%nat && (n <=? 122)%nat.

Definition to_lower (c : ascii) : ascii :=
  if is_upper c then Ascii.ascii_of_nat (Ascii.nat_of_ascii c + 32) else c.

Definition to_upper (c : ascii) : ascii :=
  if is_lower c then Ascii.ascii_of_nat (Ascii.nat_of_ascii c - 32) else c.

(** Characters removed by [str.strip()]: tab, LF, VT, FF, CR, FS, GS, RS,
    US and space. *)
Definition is_space (c : ascii) : bool :=
  let n := Ascii.nat_of_ascii c in
  ((9 <=? n)%nat && (n <=? 13)%nat) || ((28 <=? n)%nat && (n <=? 32)%nat).

(** [s.lower()] *)
Fixpoint lower (s : string) : string :=
  match s with
  | EmptyString => EmptyString
  | String c s' => String (to_lower c) (lower s')
  end.

(** [s.startswith(p)] *)
Fixpoint startswith (p s : string) : bool :=
  match p with
  | EmptyString => true
  | String a p' =>
      match s with
      | EmptyString => false
      | String b s' => Ascii.eqb a b && startswith p' s'
      end
  end.

(** [sub in s] *)
Fixpoint contains (sub s : string) : bool :=
  startswith sub s ||
  match s with
  | EmptyString => false
  | String _ s' => contains sub s'
  end.

(** [any(keyword in text for keyword in keywords)] *)
Definition any_in (keywords : list string) (text : string) : bool :=
  existsb (fun keyword => contains keyword text) keywords.

Fixpoint lstrip (s : string) : string :=
  match s with
  | EmptyString => EmptyString
  | String c s' => if is_space c then lstrip s' else s
  end.

Fixpoint rstrip (s : string) : string :=
  match s with
  | EmptyString => EmptyString
  | String c s' =>
      match rstrip s' with
      | EmptyString => if is_space c then EmptyString else String c EmptyString
      | r => String c r
      end
  end.

(** [s.strip()] *)
Definition strip (s : string) : string := rstrip (lstrip s).

(** Scan of [s.replace(old, new)] for a non-empty [old]; [skip] counts the
    characters of a match that are still to be passed over. *)
Fixpoint replace_scan (old new : string) (skip : nat) (s : string) : string :=
  match s with
  | EmptyString => EmptyString
  | String c s' =>
      match skip with
      | S k => replace_scan old new k s'
      | O =>
          if startswith old s
          then new +:+ replace_scan old new (String.length old - 1) s'
          else String c (replace_scan old new 0 s')
      end
  end.

Fixpoint intersperse (new s : string) : string :=
  match s with
  | EmptyString => EmptyString
  | String c s' => String c (new +:+ intersperse new s')
  end.

(** [s.replace(old, new)]: every non-overlapping occurrence, left to right;
    an empty [old] matches before every character and at the end. *)
Definition replace (old new s : string) : string :=
  match old with
  | EmptyString => new +:+ intersperse new s
  | _ => replace_scan old new 0 s
  end.

(** Scan of [s.split(sep)] for a non-empty [sep]; [piece] is the piece being
    collected. *)
Fixpoint split_scan (sep : string) (skip : nat) (piece : string) (s : string)
  : list string :=
  match s with
  | EmptyString => [piece]
  | String c s' =>
      match skip with
      | S k => split_scan sep k piece s'
      | O =>
          if startswith sep s
          then piece :: split_scan sep (String.length sep - 1) EmptyString s'
          else split_scan sep 0 (piece +:+ String c EmptyString) s'
      end
  end.

(** [s.split(sep)] with an explicit separator. *)
Definition split (sep s : string) : exn (list string) :=
  match sep with
  | EmptyString => Raise (ValueError "empty separator")
  | _ => Ret (split_scan sep 0 EmptyString s)
  end.

(** Scan of [s.title()]; [cased] tells whether the previous character was a
    letter. *)
Fixpoint title_scan (cased : bool) (s : string) : string :=
  match s with
  | EmptyString => EmptyString
  | String c s' =>
      if is_lower c then
        String (if cased then c else to_upper c) (title_scan true s')
      else if is_upper c then
        String (if cased then to_lower c else c) (title_scan true s')
      else String c (title_scan false s')
  end.

(** [s.title()] *)
Definition title (s : string) : string := title_scan false s.

(** [str(n)] for a non-negative integer, as used by f-strings. *)
Definition str_nat (n : nat) : string := pretty n.

End Py.
Import Py.


(** ** The environment of one call *)

(** One sample of [psutil], as read by [SystemManager.get_system_info];
    the sizes are the values after [round(_, 2)]. *)
Record PsutilSample : Type := {
  cpu_percent : Q;
  cpu_count : Z;
  cpu_freq : option Q;
  load_average : pyval;
  memory_total_gb : Q;
  memory_available_gb : Q;
  memory_percent : Q;
  memory_used_gb : Q;
  disk_total_gb : Q;
  disk_used_gb : Q;
  disk_free_gb : Q;
  disk_percent : Q;
  net_io : option (Q * Q);
  net_connections : Z;
  boot_time : string;
  users : Z
}.

Record World : Type := {
  (** [time.time()], by the function that reads the clock *)
  time_time : string -> Q;
  (** [from <module> import ...] inside a handler *)
  import_module : string -> exn unit;
  (** [os.getcwd()] *)
  os_getcwd : exn string;
  (** [os.path.exists(path)] *)
  os_path_exists : string -> bool;
  (** the entries of a directory with their [os.stat] data, sorted, and the
      summary counts, as [list_directory] builds them *)
  os_listdir : string -> exn (list pyval * pydict);
  (** [requests.Session()] with its headers set *)
  requests_Session : exn unit;
  (** [session.get(url, timeout=5)]: status code and elapsed milliseconds *)
  session_get : string -> exn (Z * Q);
  (** the DuckDuckGo request of [web_search] and the result entries
      extracted from its JSON answer *)
  duckduckgo : string -> exn (list pyval);
  (** [socket.gethostname()] and [socket.gethostbyname(hostname)] *)
  socket_host : exn (string * string);
  (** the IPv4 interfaces found through [netifaces] *)
  netifaces_interfaces : exn (list pyval);
  (** the [psutil] reads of [get_system_info] *)
  psutil_sample : exn PsutilSample;
  (** [psutil.process_iter] collected up to a limit and sorted by CPU *)
  psutil_processes : nat -> exn (list pyval)
}.

(** [{'success': False, 'error': str(e)}] *)
Definition failure (e : pyexn) : pydict :=
  [("success", VBool false); ("error", VStr (str e))].

(** ** core/file_manager.py *)

Module FileManager.

Record t : Type := {
  current_path : string;
  history : list string;
  bookmarks : list string
}.

Definition init (w : World) : exn t :=
  cwd ← os_getcwd w;
  mret {| current_path := cwd; history := []; bookmarks := [] |}.

(** The loop over [os.listdir], the sort and the summary are one read of the
    environment, [os_listdir]. *)
Definition list_directory (w : World) (self : t) (path : option string)
  : exn pydict :=
  try_except
    (let target_path :=
       match path with
       | Some p => if truthy (VStr p) then p else current_path self
       | None => current_path self
       end in
     if negb (os_path_exists w target_path) then
       mret [("success", VBool false); ("error", VStr "Path does not exist")]
     else
       '(items, summary) ← os_listdir w target_path;
       mret [("success", VBool true);
             ("path", VStr target_path);
             ("items", VList items);
             ("summary", VDict summary)])
    (fun e => mret (failure e)).

End FileManager.

(** ** core/network_manager.py *)

Module NetworkManager.

Record t : Type := {
  request_history : list pydict
}.

Definition init (w : World) : exn t :=
  _ ← requests_Session w;
  mret {| request_history := [] |}.

Definition test_urls : list string :=
  ["https://www.google.com"; "https://www.cloudflare.com";
   "https://www.github.com"].

(** One round of the loop of [check_connectivity]. *)
Definition probe (w : World) (url : string) : pydict :=
  match session_get w url with
  | Ret (status_code, response_time) =>
      [("url", VStr url); ("status", VStr "SUCCESS");
       ("response_time_ms", VFloat response_time);
       ("status_code", VInt status_code)]
  | Raise e =>
      [("url", VStr url); ("status", VStr "FAILED"); ("error", VStr (str e))]
  end.

(** [r['status'] == 'SUCCESS'] *)
Definition is_SUCCESS (r : pydict) : bool :=
  match dict_get "status" r with
  | Some (VStr s) => String.eqb s "SUCCESS"
  | _ => false
  end.

Definition check_connectivity (w : World) (self : t) : exn pydict :=
  try_except
    (let results := map (probe w) test_urls in
     let success_count := length (filter (fun r => is_SUCCESS r = true) results) in
     mret [("success", VBool true);
           ("connected", VBool (0 <? success_count)%nat);
           ("success_rate",
            VStr (str_nat success_count +:+ "/" +:+ str_nat (length test_urls)));
           ("tests", VList (map VDict results));
           ("timestamp", VFloat (time_time w "check_connectivity"))])
    (fun e => mret (failure e)).

Definition get_system_network_info (w : World) (self : t) : exn pydict :=
  try_except
    ('(hostname, local_ip) ← socket_host w;
     interfaces ←
       match netifaces_interfaces w with
       | Raise (ImportError _) =>
           mret [VDict [("interface", VStr "eth0");
                        ("ip_address", VStr local_ip);
                        ("netmask", VStr "255.255.255.0")]]
       | r => r
       end;
     mret [("success", VBool true);
           ("hostname", VStr hostname);
           ("local_ip", VStr local_ip);
           ("interfaces", VList interfaces);
           ("timestamp", VFloat (time_time w "get_system_network_info"))])
    (fun e => mret (failure e)).

(** The entry appended to [self.request_history] is not kept: the handler
    that calls [web_search] drops the manager on return. *)
Definition web_search (w : World) (self : t) (query : string) (max_results : nat)
  : exn pydict :=
  try_except
    (results ← duckduckgo w query;
     mret [("success", VBool true);
           ("query", VStr query);
           ("results", VList (take max_results results));
           ("total_results", VInt (Z.of_nat (length results)));
           ("source", VStr "DuckDuckGo")])
    (fun e => mret (failure e)).

Definition get_weather (w : World) (self : t) (location : string) : exn pydict :=
  try_except
    (let weather_data :=
       [("location", VStr (title location));
        ("temperature", VFloat (Qmake 45 2));
        ("conditions", VStr "Partly Cloudy");
        ("humidity", VInt 65);
        ("wind_speed", VFloat (Qmake 76 5));
        ("pressure", VInt 1013);
        ("timestamp", VFloat (time_time w "get_weather"))] in
     mret [("success", VBool true);
           ("weather", VDict weather_data);
           ("source", VStr "simulated")])
    (fun e => mret (failure e)).

End NetworkManager.

(** ** core/system_manager.py *)

Module SystemManager.

Record t : Type := {
  system_info : pydict;
  processes : list pyval;
  monitoring : bool;
  update_interval : Z
}.

Definition init : t :=
  {| system_info := []; processes := []; monitoring := false;
     update_interval := 2 |}.

(** The dictionary is also stored in [self.system_info]; the handlers create
    the manager for one call, so only the returned value is modelled.  The
    dictionary has the keys [cpu], [memory], [disk], [network] and [system],
    and the one returned on an error has the key [error] alone. *)
Definition get_system_info (w : World) (self : t) : exn pydict :=
  try_except
    (p ← psutil_sample w;
     mret [("cpu", VDict
              [("usage_percent", VFloat (cpu_percent p));
               ("core_count", VInt (cpu_count p));
               ("frequency_mhz",
                match cpu_freq p with Some f => VFloat f | None => VInt 0 end);
               ("load_average", load_average p)]);
           ("memory", VDict
              [("total_gb", VFloat (memory_total_gb p));
               ("available_gb", VFloat (memory_available_gb p));
               ("used_percent", VFloat (memory_percent p));
               ("used_gb", VFloat (memory_used_gb p))]);
           ("disk", VDict
              [("total_gb", VFloat (disk_total_gb p));
               ("used_gb", VFloat (disk_used_gb p));
               ("free_gb", VFloat (disk_free_gb p));
               ("used_percent", VFloat (disk_percent p))]);
           ("network", VDict
              [("bytes_sent_mb",
                match net_io p with Some (s, _) => VFloat s | None => VInt 0 end);
               ("bytes_recv_mb",
                match net_io p with Some (_, r) => VFloat r | None => VInt 0 end);
               ("active_connections", VInt (net_connections p))]);
           ("system", VDict
              [("boot_time", VStr (boot_time p));
               ("users_count", VInt (users p));
               ("timestamp", VFloat (time_time w "get_system_info"))])])
    (fun e => mret [("error", VStr (str e))]).

Definition get_running_processes (w : World) (self : t) (limit : nat)
  : exn (list pyval) :=
  try_except
    (psutil_processes w limit)
    (fun e => mret [VDict [("error", VStr (str e))]]).

(** [info.get(section, {}).get(key, 0)] *)
Definition get_nested (info : pydict) (section key : string) : exn pyval :=
  match dict_get section info with
  | None => mret (VInt 0)
  | Some (VDict d) => mret (default (VInt 0) (dict_get key d))
  | Some _ => Raise (AttributeError "object has no attribute 'get'")
  end.

(** [v > 90] *)
Definition gt_90 (v : pyval) : exn bool :=
  match v with
  | VInt z => mret (90 <? z)%Z
  | VBool b => mret false
  | VFloat q => mret (negb (Qle_bool q (Qmake 90 1)))
  | _ => Raise (TypeError "'>' not supported between these instances")
  end.

Definition get_system_health (w : World) (self : t) : exn pydict :=
  info ← get_system_info w self;
  let health_status := "HEALTHY" in
  let warnings : list pyval := [] in
  cpu ← get_nested info "cpu" "usage_percent";
  cpu_high ← gt_90 cpu;
  let health_status := if (cpu_high : bool) then "WARNING" else health_status in
  let warnings := if cpu_high then (warnings ++ [VStr "High CPU usage"])%list else warnings in
  memory ← get_nested info "memory" "used_percent";
  memory_high ← gt_90 memory;
  let health_status := if (memory_high : bool) then "CRITICAL" else health_status in
  let warnings :=
    if memory_high then (warnings ++ [VStr "High memory usage"])%list else warnings in
  disk ← get_nested info "disk" "used_percent";
  disk_high ← gt_90 disk;
  let health_status := if (disk_high : bool) then "WARNING" else health_status in
  let warnings := if disk_high then (warnings ++ [VStr "Low disk space"])%list else warnings in
  mret [("status", VStr health_status);
        ("warnings", VList warnings);
        ("timestamp", VFloat (time_time w "get_system_health"))].

End SystemManager.

(** ** ai/voice_interface.py *)

Module VoiceInterface.

Record t : Type := {
  command_history : list pydict;
  context : list pyval
}.

Definition init : t := {| command_history := []; context := [] |}.

Definition file_keywords : list string :=
  ["file"; "folder"; "directory"; "list"; "ls"; "read"; "create"; "delete"].

Definition network_keywords : list string :=
  ["search"; "find"; "weather"; "internet"; "connectivity"; "network"].

Definition system_keywords : list string :=
  ["system"; "status"; "process"; "cpu"; "memory"; "health"].

Definition _classify_intent (text : string) : string :=
  if any_in file_keywords text then "file_operation"
  else if any_in network_keywords text then "network_operation"
  else if any_in system_keywords text then "system_operation"
  else "general".

Definition nl : string := String (Ascii.ascii_of_nat 10) "".

Definition plans : pydict :=
  [("file_operation",
    VStr ("1. Analyze file operation request" +:+ nl +:+ "2. Check permissions"
          +:+ nl +:+ "3. Execute file operation" +:+ nl +:+ "4. Return results"));
   ("network_operation",
    VStr ("1. Analyze network request" +:+ nl +:+ "2. Check connectivity"
          +:+ nl +:+ "3. Execute network operation" +:+ nl
          +:+ "4. Process response"));
   ("system_operation",
    VStr ("1. Analyze system request" +:+ nl +:+ "2. Gather system data"
          +:+ nl +:+ "3. Generate report" +:+ nl +:+ "4. Display information"));
   ("general",
    VStr ("1. Process general command" +:+ nl +:+ "2. Execute appropriate action"
          +:+ nl +:+ "3. Return response"))].

Definition _create_execution_plan (intent : string) : pyval :=
  default (VStr "Standard execution plan") (dict_get intent plans).

(** The interface after the call, and the returned dictionary. *)
Definition process_command (w : World) (text : string) (self : t) : t * pydict :=
  let text_lower := lower text in
  let intent := _classify_intent text_lower in
  let execution_plan := _create_execution_plan intent in
  let self' :=
    {| command_history :=
         command_history self ++
         [[("text", VStr text); ("intent", VStr intent);
           ("timestamp", VFloat (time_time w "process_command"))]];
       context := context self |} in
  (self',
   [("original_text", VStr text);
    ("detected_intent", VStr intent);
    ("execution_plan", execution_plan);
    ("confidence", VFloat (Qmake 85 100))]).

(** [self.command_history[-limit:]] is modelled with the orchestrator's
    history below. *)

End VoiceInterface.

(** ** ai/orchestrator.py *)

Module AIOrchestrator.

Inductive TaskPriority : Type := LOW | MEDIUM | HIGH | CRITICAL.

(** A task dictionary.  [task_result] is [None] while the key ['result'] is
    absent. *)
Record Task : Type := {
  task_id : nat;
  task_command : string;
  task_intent : option string;
  task_status : string;
  task_priority : TaskPriority;
  task_timestamp : Q;
  task_result : option pydict
}.

(** The orchestrator object.  Task dictionaries live in [heap] and the two
    lists hold references (heap indices), so that the dictionary appended to
    [tasks] and later to [task_history] is one shared object. *)
Record t : Type := {
  heap : list Task;
  tasks : list nat;
  task_history : list nat;
  modules : list (string * (string * string))
}.

Definition init : t :=
  {| heap := []; tasks := []; task_history := []; modules := [] |}.

(** Computations on the orchestrator that may raise; the state reached when
    an exception is raised is kept. *)
Definition M (A : Type) : Type := t -> t * exn A.

Definition ret {A : Type} (a : A) : M A := fun self => (self, Ret a).

Definition bind {A B : Type} (m : M A) (f : A -> M B) : M B :=
  fun self =>
    match m self with
    | (self', Ret a) => f a self'
    | (self', Raise e) => (self', Raise e)
    end.

Definition lift {A : Type} (c : exn A) : M A := fun self => (self, c).

Definition gets {A : Type} (f : t -> A) : M A := fun self => (self, Ret (f self)).

Definition modify (f : t -> t) : M unit := fun self => (f self, Ret tt).

Definition try_except_M {A : Type} (body : M A) (handler : pyexn -> M A) : M A :=
  fun self =>
    match body self with
    | (self', Ret a) => (self', Ret a)
    | (self', Raise e) => handler e self'
    end.

#[export] Instance M_ret : MRet M := @ret.
#[export] Instance M_bind : MBind M := fun A B f m => bind m f.

(** A new dictionary object; the reference to it is returned. *)
Definition new_task (task : Task) : M nat :=
  fun self =>
    ({| heap := heap self ++ [task]; tasks := tasks self;
        task_history := task_history self; modules := modules self |},
     Ret (length (heap self))).

(** [task[key] = value] through a reference. *)
Definition update_task (ref : nat) (f : Task -> Task) : M unit :=
  modify (fun self =>
    {| heap := alter f ref (heap self); tasks := tasks self;
       task_history := task_history self; modules := modules self |}).

Definition set_status (status : string) (task : Task) : Task :=
  {| task_id := task_id task; task_command := task_command task;
     task_intent := task_intent task; task_status := status;
     task_priority := task_priority task;
     task_timestamp := task_timestamp task; task_result := task_result task |}.

Definition set_result (result : pydict) (task : Task) : Task :=
  {| task_id := task_id task; task_command := task_command task;
     task_intent := task_intent task; task_status := task_status task;
     task_priority := task_priority task;
     task_timestamp := task_timestamp task; task_result := Some result |}.

(** [self.tasks.append(task)] *)
Definition tasks_append (ref : nat) : M unit :=
  modify (fun self =>
    {| heap := heap self; tasks := tasks self ++ [ref];
       task_history := task_history self; modules := modules self |}).

(** [self.task_history.append(task)] *)
Definition task_history_append (ref : nat) : M unit :=
  modify (fun self =>
    {| heap := heap self; tasks := tasks self;
       task_history := task_history self ++ [ref]; modules := modules self |}).

Definition _handle_file_operation (w : World) (command : string) : exn pydict :=
  _ ← import_module w "core.file_manager";
  fm ← FileManager.init w;
  if contains "list" (lower command) || contains "ls" (lower command) then
    FileManager.list_directory w fm None
  else if contains "read" (lower command) then
    mret [("success", VBool true); ("message", VStr "File read operation")]
  else
    mret [("success", VBool true); ("message", VStr "File operation completed")].

Definition _handle_network_operation (w : World) (command : string) : exn pydict :=
  _ ← import_module w "core.network_manager";
  nm ← NetworkManager.init w;
  if contains "search" (lower command) then
    let query := strip (replace "search" "" command) in
    NetworkManager.web_search w nm query 5
  else if contains "weather" (lower command) then
    location ←
      (if contains "in" command then
         parts ← split "in" command;
         part ← list_item parts 1;
         mret (strip part)
       else mret "London");
    NetworkManager.get_weather w nm location
  else if contains "internet" (lower command)
          || contains "connectivity" (lower command) then
    NetworkManager.check_connectivity w nm
  else
    NetworkManager.get_system_network_info w nm.

Definition _handle_system_operation (w : World) (command : string) : exn pydict :=
  _ ← import_module w "core.system_manager";
  let sm := SystemManager.init in
  if contains "status" (lower command) then
    SystemManager.get_system_info w sm
  else if contains "process" (lower command) then
    processes ← SystemManager.get_running_processes w sm 20;
    mret [("success", VBool true); ("processes", VList processes)]
  else if contains "health" (lower command) then
    SystemManager.get_system_health w sm
  else
    SystemManager.get_system_info w sm.

Definition _handle_general_command (w : World) (command : string) : exn pydict :=
  mret [("success", VBool true);
        ("message", VStr ("Command executed: " +:+ command));
        ("timestamp", VFloat (time_time w "_handle_general_command"))].

(** [intent == label], for an intent that is a string or [None]. *)
Definition intent_is (intent : option string) (label : string) : bool :=
  match intent with
  | Some s => String.eqb s label
  | None => false
  end.

(** The [if]/[elif] chain of [_execute_task]: the handler call selected by
    the intent. *)
Definition handler_call (w : World) (intent : option string) (command : string)
  : exn pydict :=
  if intent_is intent "file_operation" then _handle_file_operation w command
  else if intent_is intent "network_operation" then
    _handle_network_operation w command
  else if intent_is intent "system_operation" then
    _handle_system_operation w command
  else _handle_general_command w command.

(** The task always has the keys ['intent'] and ['command'], so the
    defaults of the two [get] calls are never used. *)
Definition _execute_task (w : World) (task : Task) : exn pydict :=
  let intent := task_intent task in
  let command := task_command task in
  try_except
    (handler_call w intent command)
    (fun e => mret (failure e)).

Definition submit_task (w : World) (command : string) (user_intent : option string)
  : M pydict :=
  try_except_M
    (task_id ← gets (fun self => length (tasks self) + 1);
     let task :=
       {| task_id := task_id; task_command := command;
          task_intent := user_intent; task_status := "pending";
          task_priority := MEDIUM;
          task_timestamp := time_time w "submit_task";
          task_result := None |} in
     ref ← new_task task;
     tasks_append ref;;
     result ← lift (_execute_task w task);
     success ← lift (dict_item result "success");
     update_task ref
       (set_status (if truthy success then "completed" else "failed"));;
     update_task ref (set_result result);;
     task_history_append ref;;
     mret result)
    (fun e => mret (failure e)).

(** [l[start:]] *)
Definition slice_from {A : Type} (start : Z) (l : list A) : list A :=
  let n := Z.of_nat (length l) in
  let start := if (start <? 0)%Z then Z.max (start + n) 0 else Z.min start n in
  drop (Z.to_nat start) l.

(** The dictionaries a list of references points to. *)
Definition deref (self : t) (refs : list nat) : list Task :=
  omap (fun ref => heap self !! ref) refs.

(** [self.task_history[-limit:]] *)
Definition get_task_history (limit : Z) (self : t) : list Task :=
  deref self (slice_from (- limit) (task_history self)).

Definition get_system_status (self : t) : pydict :=
  let history := deref self (task_history self) in
  let count (status : string) :=
    length (filter (fun task => task_status task = status) history) in
  [("total_tasks", VInt (Z.of_nat (length (task_history self))));
   ("successful_tasks", VInt (Z.of_nat (count "completed")));
   ("failed_tasks", VInt (Z.of_nat (count "failed")));
   ("registered_modules", VInt (Z.of_nat (length (modules self))));
   ("active_tasks", VInt (Z.of_nat (length (tasks self))))].

(** One submission: the environment it runs in and its two arguments. *)
Record Submission : Type := {
  sub_world : World;
  sub_command : string;
  sub_intent : option string
}.

Definition submit (self : t) (s : Submission) : t :=
  fst (submit_task (sub_world s) (sub_command s) (sub_intent s) self).

(** The orchestrator after a sequence of calls of [submit_task]. *)
Definition run (subs : list Submission) (self : t) : t :=
  foldl submit self subs.

End AIOrchestrator.

(** ** Further methods of the modelled classes *)




(** [VoiceInterface.get_command_history]: [self.command_history[-limit:]]. *)
Definition get_command_history (limit : Z) (self : VoiceInterface.t)
  : list pydict :=
  AIOrchestrator.slice_from (- limit) (VoiceInterface.command_history self).

(** The interface after a sequence of calls of [process_command], each in
    its own environment. *)
Definition process_all (inputs : list (World * string)) (self : VoiceInterface.t)
  : VoiceInterface.t :=
  foldl (fun v i => fst (VoiceInterface.process_command i.1 i.2 v)) self inputs.

(** *** core/file_manager.py: [change_directory] and [read_file] *)

Module FileOps.

(** The reads of the file system that these two methods add. *)
Record Files : Type := {
  (** [os.path.isdir(path)] *)
  os_path_isdir : string -> bool;
  (** [os.path.getsize(path)] *)
  os_path_getsize : string -> exn Z;
  (** [open(path, 'r', encoding='utf-8', errors='ignore')] and [file.read()] *)
  read_text : string -> exn string
}.

(** The manager after the call, and the returned dictionary.  Nothing in
    the [try] block raises once the two tests have passed, so the state is
    changed on success only. *)
Definition change_directory (w : World) (fs : Files) (new_path : string)
    (self : FileManager.t) : FileManager.t * exn pydict :=
  if negb (os_path_exists w new_path) then
    (self, Ret [("success", VBool false); ("error", VStr "Path does not exist")])
  else if negb (os_path_isdir fs new_path) then
    (self,
     Ret [("success", VBool false); ("error", VStr "Path is not a directory")])
  else
    ({| FileManager.current_path := new_path;
        FileManager.history :=
          (FileManager.history self ++ [FileManager.current_path self])%list;
        FileManager.bookmarks := FileManager.bookmarks self |},
     Ret [("success", VBool true);
          ("message", VStr ("Changed to: " +:+ new_path))]).

Definition read_file (w : World) (fs : Files) (file_path : string)
  : exn pydict :=
  try_except
    (if negb (os_path_exists w file_path) then
       mret [("success", VBool false); ("error", VStr "File does not exist")]
     else if os_path_isdir fs file_path then
       mret [("success", VBool false); ("error", VStr "Path is a directory")]
     else
       file_size ← os_path_getsize fs file_path;
       if (1024 * 1024 <? file_size)%Z then
         mret [("success", VBool false);
               ("error", VStr "File too large to read")]
       else
         content ← read_text fs file_path;
         mret [("success", VBool true);
               ("content", VStr content);
               ("size", VInt file_size);
               ("encoding", VStr "utf-8")])
    (fun e => mret (failure e)).

(** The manager after a sequence of [change_directory] calls. *)
Definition change_all (w : World) (fs : Files) (paths : list string)
    (self : FileManager.t) : FileManager.t :=
  foldl (fun fm p => fst (change_directory w fs p fm)) self paths.

End FileOps.

(** *** apps/terminal.py *)

Module TerminalEmulator.

(** The terminal without its widgets: the text of the entry and of the
    output area stand for the two widgets. *)
Record t : Type := {
  command_history : list string;
  history_index : Z;
  command_entry : string;
  output_area : string
}.

Definition nl : string := String (Ascii.ascii_of_nat 10) "".

Definition welcome : string :=
  "NeuroOS Terminal v1.0" +:+ nl +:+ "Type 'help' for available commands"
  +:+ nl +:+ nl.

(** [__init__] with [setup_terminal], which writes the welcome message. *)
Definition init : t :=
  {| command_history := []; history_index := 0; command_entry := "";
     output_area := welcome |}.

Definition write_output (text : string) (self : t) : t :=
  {| command_history := command_history self;
     history_index := history_index self;
     command_entry := command_entry self;
     output_area := output_area self +:+ text |}.

(** [l[i]] for an integer index: negative indices count from the end. *)
Definition index {A : Type} (l : list A) (i : Z) : exn A :=
  let n := Z.of_nat (length l) in
  let j := if (i <? 0)%Z then (i + n)%Z else i in
  if (j <? 0)%Z then Raise (IndexError "list index out of range")
  else list_item l (Z.to_nat j).

(** The synchronous part of [execute_command]: the new state and the
    command handed to the worker thread, if any. *)
Definition execute_command (self : t) : t * option string :=
  let command := strip (command_entry self) in
  if negb (truthy (VStr command)) then (self, None)
  else
    let history := (command_history self ++ [command])%list in
    let self1 :=
      {| command_history := history;
         history_index := Z.of_nat (length history);
         command_entry := command_entry self;
         output_area := output_area self |} in
    let self2 := write_output ("$ " +:+ command +:+ nl) self1 in
    ({| command_history := command_history self2;
        history_index := history_index self2;
        command_entry := "";
        output_area := output_area self2 |},
     Some command).

Definition set_index_entry (i : Z) (entry : string) (self : t) : t :=
  {| command_history := command_history self;
     history_index := i;
     command_entry := entry;
     output_area := output_area self |}.

(** The handlers of the Up and Down keys.  The index is changed and the
    entry emptied before the history is read, so that is the state left
    behind if the read raises. *)
Definition previous_command (self : t) : t * exn unit :=
  if truthy (VList (map VStr (command_history self)))
     && (0 <? history_index self)%Z then
    let i := (history_index self - 1)%Z in
    match index (command_history self) i with
    | Ret c => (set_index_entry i c self, Ret tt)
    | Raise e => (set_index_entry i "" self, Raise e)
    end
  else (self, Ret tt).

Definition next_command (self : t) : t * exn unit :=
  if truthy (VList (map VStr (command_history self)))
     && (history_index self <? Z.of_nat (length (command_history self)) - 1)%Z
  then
    let i := (history_index self + 1)%Z in
    match index (command_history self) i with
    | Ret c => (set_index_entry i c self, Ret tt)
    | Raise e => (set_index_entry i "" self, Raise e)
    end
  else
    (set_index_entry (Z.of_nat (length (command_history self))) "" self, Ret tt).

(** What the user does at the keyboard. *)
Inductive Key : Type :=
| Type_ (text : string)
| Return
| Up
| Down.

(** One key event: typing replaces the text of the entry. *)
Definition press (self : t) (k : Key) : t :=
  match k with
  | Type_ text =>
      {| command_history := command_history self;
         history_index := history_index self;
         command_entry := text;
         output_area := output_area self |}
  | Return => fst (execute_command self)
  | Up => fst (previous_command self)
  | Down => fst (next_command self)
  end.

Definition session (keys : list Key) : t := foldl press init keys.

End TerminalEmulator.

(** *** ui/desktop.py: the two calls of [execute_ai_command] *)

Module Desktop.


End Desktop.

(** * Vocabulary of the properties *)

Import VoiceInterface AIOrchestrator.
Local Open Scope list_scope.

(** [sub] occurs in [s]. *)
Definition Substring (sub s : string) : Prop :=
  exists pre post : string, s = pre +:+ sub +:+ post.

(** The closed set of intent labels. *)
Definition labels : list string :=
  ["file_operation"; "network_operation"; "system_operation"; "general"].

(** The value under ['detected_intent'] in what [process_command] returns. *)
Definition detected_intent (w : World) (text : string) (v : VoiceInterface.t)
  : option pyval :=
  dict_get "detected_intent" (snd (process_command w text v)).

(** A dictionary with a boolean under ['success']. *)
Definition envelope (d : pydict) : Prop :=
  exists b : bool, dict_get "success" d = Some (VBool b).

(** The two kinds of envelope. *)
Definition is_success (d : pydict) : Prop :=
  dict_get "success" d = Some (VBool true).

Definition is_failure (d : pydict) : Prop :=
  dict_get "success" d = Some (VBool false).

(** Unfolding of the exception monad. *)
Ltac unfold_exn :=
  unfold mbind, exn_bind, mret, exn_ret, try_except in *.

(** Case analysis on every value the environment supplies to a computation
    known to return. *)
Ltac exn_cases H :=
  unfold_exn; simpl in H;
  repeat match type of H with
         | context [match ?x with _ => _ end] =>
             lazymatch x with
             | context [match _ with _ => _ end] => fail
             | _ => destruct x; simpl in H
             end
         end;
  try discriminate H.

(** Closing a goal [envelope d] once [d] is known. *)
Ltac close_envelope H :=
  injection H as <-; unfold envelope; simpl; eauto.

(** The dictionary [submit_task] creates. *)
Definition pending_task (w : World) (command : string) (user_intent : option string)
    (self : AIOrchestrator.t) : Task :=
  {| task_id := length (tasks self) + 1; task_command := command;
     task_intent := user_intent; task_status := "pending";
     task_priority := MEDIUM; task_timestamp := time_time w "submit_task";
     task_result := None |}.

(** The same dictionary after the two assignments that follow execution. *)
Definition finished_task (task : Task) (result : pydict) (success : pyval) : Task :=
  set_result result
    (set_status (if truthy success then "completed" else "failed") task).

(** The orchestrator with its heap and its two lists replaced. *)
Definition with_lists (self : AIOrchestrator.t) (h : list Task) (ts hist : list nat)
  : AIOrchestrator.t :=
  {| heap := h; tasks := ts; task_history := hist; modules := modules self |}.

(** A record whose lifecycle has ended: status [completed] or [failed] and
    a result. *)
Definition terminal (task : Task) : Prop :=
  (task_status task = "completed" \/ task_status task = "failed") /\
  task_result task <> None.

(** The dictionaries in the history, in order. *)
Definition history_records (self : AIOrchestrator.t) : list Task :=
  deref self (task_history self).

(** The dictionaries in [tasks], in order. *)
Definition task_records (self : AIOrchestrator.t) : list Task :=
  deref self (tasks self).

(** What every reachable orchestrator satisfies: [tasks] refers to the heap
    entries in order, the entry at index [i] has id [i + 1], and the history
    is an increasing list of references to terminal records. *)
Record wf (self : AIOrchestrator.t) : Prop := {
  wf_tasks : tasks self = seq 0 (length (heap self));
  wf_ids : forall i task, heap self !! i = Some task -> task_id task = i + 1;
  wf_sorted : StronglySorted lt (task_history self);
  wf_history :
    Forall (fun ref => exists task, heap self !! ref = Some task /\ terminal task)
      (task_history self)
}.

(** An environment in which every collaborator answers. *)
Definition example_sample : PsutilSample :=
  {| cpu_percent := Qmake 25 2; cpu_count := 4; cpu_freq := None;
     load_average := VList []; memory_total_gb := Qmake 16 1;
     memory_available_gb := Qmake 8 1; memory_percent := Qmake 50 1;
     memory_used_gb := Qmake 8 1; disk_total_gb := Qmake 100 1;
     disk_used_gb := Qmake 40 1; disk_free_gb := Qmake 60 1;
     disk_percent := Qmake 40 1; net_io := None; net_connections := 3;
     boot_time := "Thu Jan  1 00:00:00 1970"; users := 1 |}.

Definition example_world : World :=
  {| time_time := fun _ => Qmake 1000 1;
     import_module := fun _ => Ret tt;
     os_getcwd := Ret "/home/user";
     os_path_exists := fun _ => true;
     os_listdir := fun _ => Ret ([], []);
     requests_Session := Ret tt;
     session_get := fun _ => Ret (200%Z, Qmake 12 1);
     duckduckgo := fun _ => Ret [];
     socket_host := Ret ("neuro", "127.0.0.1");
     netifaces_interfaces := Raise (ImportError "No module named 'netifaces'");
     psutil_sample := Ret example_sample;
     psutil_processes := fun _ => Ret [] |}.

(** The same environment without the [requests] package: importing
    [core.network_manager] fails. *)
Definition no_requests_world : World :=
  {| time_time := time_time example_world;
     import_module := fun name =>
       if String.eqb name "core.network_manager"
       then Raise (ImportError "No module named 'requests'")
       else Ret tt;
     os_getcwd := os_getcwd example_world;
     os_path_exists := os_path_exists example_world;
     os_listdir := os_listdir example_world;
     requests_Session := requests_Session example_world;
     session_get := session_get example_world;
     duckduckgo := duckduckgo example_world;
     socket_host := socket_host example_world;
     netifaces_interfaces := netifaces_interfaces example_world;
     psutil_sample := psutil_sample example_world;
     psutil_processes := psutil_processes example_world |}.

(** A record that was created and never finished. *)
Definition pending (task : Task) : Prop :=
  task_status task = "pending" /\ task_result task = None.

(** The integer under a key of a dictionary. *)
Definition dict_int (k : string) (d : pydict) : option Z :=
  match dict_get k d with
  | Some (VInt z) => Some z
  | _ => None
  end.

(** The place of a label in the order of the tests: a higher rank is
    tested earlier. *)
Definition intent_rank (label : string) : nat :=
  if String.eqb label "file_operation" then 3
  else if String.eqb label "network_operation" then 2
  else if String.eqb label "system_operation" then 1
  else 0.

(** The value under a key in each dictionary of a list. *)
Definition column (k : string) (rows : list pydict) : list (option pyval) :=
  map (dict_get k) rows.

(** Whether the GET of a URL returns a response. *)
Definition answers (w : World) (url : string) : bool :=
  match session_get w url with
  | Ret _ => true
  | Raise _ => false
  end.

(** [q > 90] on a measured percentage. *)
Definition exceeds_90 (q : Q) : bool := negb (Qle_bool q (Qmake 90 1)).

(** An environment without a network: every GET raises. *)
Definition offline_world : World :=
  {| time_time := time_time example_world;
     import_module := import_module example_world;
     os_getcwd := os_getcwd example_world;
     os_path_exists := os_path_exists example_world;
     os_listdir := os_listdir example_world;
     requests_Session := requests_Session example_world;
     session_get := fun _ => Raise (Exception "Connection refused");
     duckduckgo := fun _ => Raise (Exception "Connection refused");
     socket_host := socket_host example_world;
     netifaces_interfaces := netifaces_interfaces example_world;
     psutil_sample := Raise (Exception "psutil failed");
     psutil_processes := fun _ => Raise (Exception "psutil failed") |}.

(** A file system with the directory [/tmp] and files of 1 MiB. *)
Definition example_files : FileOps.Files :=
  {| FileOps.os_path_isdir := fun path => String.eqb path "/tmp";
     FileOps.os_path_getsize := fun _ => Ret (1024 * 1024)%Z;
     FileOps.read_text := fun _ => Ret "hello" |}.

(** The paths a [change_directory] call accepts. *)
Definition is_directory (w : World) (fs : FileOps.Files) (path : string) : bool :=
  os_path_exists w path && FileOps.os_path_isdir fs path.

(** A string that does not begin with white space. *)
Definition no_lead (s : string) : Prop :=
  match s with
  | EmptyString => True
  | String c _ => is_space c = false
  end.

(** The history index of a terminal points into the history or just past
    its end. *)
Definition index_in_range (term : TerminalEmulator.t) : Prop :=
  (0 <= TerminalEmulator.history_index term
   <= Z.of_nat (length (TerminalEmulator.command_history term)))%Z.

(** The terminal at a fresh prompt: the index is past the last command. *)
Definition at_prompt (term : TerminalEmulator.t) : Prop :=
  TerminalEmulator.history_index term
  = Z.of_nat (length (TerminalEmulator.command_history term)).

(** * Properties *)

(** ** Substring tests *)

Section Strings.

Lemma startswith_spec (p s : string) :
  startswith p s = true <-> exists post : string, s = p +:+ post.
Proof.
  revert s. induction p as [|a p IH]; intros s; simpl.
  - split; [intros _; exists s; reflexivity | reflexivity].
  - destruct s as [|b s].
    + split; [discriminate | intros [post H]; discriminate].
    + rewrite andb_true_iff, IH, Ascii.eqb_eq. split.
      * intros [-> [post ->]]. exists post. reflexivity.
      * intros [post H]. injection H as -> ->. eauto.
Qed.

Lemma contains_spec (sub s : string) :
  contains sub s = true <-> Substring sub s.
Proof.
  induction s as [|c s IH].
  - simpl. rewrite orb_false_r, startswith_spec. split.
    + intros [post H]. exists "", post. exact H.
    + intros [[|a pre] [post H]]; [exists post; exact H | discriminate].
  - change (contains sub (String c s))
      with (startswith sub (String c s) || contains sub s).
    rewrite orb_true_iff, IH, startswith_spec. split.
    + intros [[post H] | [pre [post H]]].
      * exists "", post. exact H.
      * exists (String c pre), post. simpl. now rewrite H.
    + intros [[|a pre] [post H]].
      * left. exists post. exact H.
      * right. injection H as _ H. exists pre, post. exact H.
Qed.

Lemma any_in_spec (keywords : list string) (text : string) :
  any_in keywords text = true <->
  exists keyword : string, In keyword keywords /\ Substring keyword text.
Proof.
  unfold any_in. rewrite existsb_exists.
  split; intros [k [Hk H]]; exists k; (split; [exact Hk|]);
    now apply contains_spec.
Qed.

Lemma any_in_false (keywords : list string) (text : string) :
  (forall keyword : string, In keyword keywords -> ~ Substring keyword text) ->
  any_in keywords text = false.
Proof.
  intros H. destruct (any_in keywords text) eqn:E; [|reflexivity].
  apply any_in_spec in E as [k [Hk Hs]]. destruct (H k Hk Hs).
Qed.

Lemma any_in_none (keywords : list string) (text : string) :
  any_in keywords text = false ->
  forall keyword : string, In keyword keywords -> ~ Substring keyword text.
Proof.
  intros E k Hk Hs.
  assert (any_in keywords text = true) as H by (apply any_in_spec; eauto).
  congruence.
Qed.

End Strings.

(** ** The intent classifier *)

Lemma detected_intent_eq (w : World) (text : string) (v : VoiceInterface.t) :
  detected_intent w text v = Some (VStr (_classify_intent (lower text))).
Proof. reflexivity. Qed.

(** C3. [_classify_intent] tests the keyword sets in the fixed order file,
    network, system: a file keyword occurring in the text it is given yields
    [file_operation]; otherwise a network keyword yields
    [network_operation]; otherwise a system keyword yields
    [system_operation]; otherwise the label is [general].  The text it is
    given by [process_command] is the case-folded input. *)
Theorem classify_intent_priority (text : string) :
  ((exists k, In k file_keywords /\ Substring k text) ->
   _classify_intent text = "file_operation") /\
  ((forall k, In k file_keywords -> ~ Substring k text) ->
   (exists k, In k network_keywords /\ Substring k text) ->
   _classify_intent text = "network_operation") /\
  ((forall k, In k file_keywords -> ~ Substring k text) ->
   (forall k, In k network_keywords -> ~ Substring k text) ->
   (exists k, In k system_keywords /\ Substring k text) ->
   _classify_intent text = "system_operation") /\
  ((forall k, In k file_keywords -> ~ Substring k text) ->
   (forall k, In k network_keywords -> ~ Substring k text) ->
   (forall k, In k system_keywords -> ~ Substring k text) ->
   _classify_intent text = "general") /\
  (forall w v,
     detected_intent w text v = Some (VStr (_classify_intent (lower text)))).
Proof.
  unfold _classify_intent. repeat split.
  - intros H. apply any_in_spec in H. now rewrite H.
  - intros Hf Hn. apply any_in_false in Hf. apply any_in_spec in Hn.
    now rewrite Hf, Hn.
  - intros Hf Hn Hs. apply any_in_false in Hf, Hn. apply any_in_spec in Hs.
    now rewrite Hf, Hn, Hs.
  - intros Hf Hn Hs. apply any_in_false in Hf, Hn, Hs.
    now rewrite Hf, Hn, Hs.
Qed.

Lemma classify_intent_priority_witness :
  _classify_intent "list files" = "file_operation" /\
  _classify_intent "find the cpu" = "network_operation" /\
  _classify_intent "cpu load" = "system_operation".
Proof.
  split; [|split].
  - apply (proj1 (classify_intent_priority "list files")).
    exists "list". split; [simpl; tauto|]. exists "", " files". reflexivity.
  - apply (proj1 (proj2 (classify_intent_priority "find the cpu"))).
    + apply any_in_none. reflexivity.
    + exists "find". split; [simpl; tauto|]. exists "", " the cpu". reflexivity.
  - apply (proj1 (proj2 (proj2 (classify_intent_priority "cpu load")))).
    + apply any_in_none. reflexivity.
    + apply any_in_none. reflexivity.
    + exists "cpu". split; [simpl; tauto|]. exists "", " load". reflexivity.
Defined.

(** C9. [_classify_intent] is total and pure: for every text its value is
    one, and only one, of the four labels, and the label that
    [process_command] detects depends on the text alone, not on the state of
    the interface or on the environment, so that classifying a text a second
    time gives the same label. *)
Theorem classify_intent_total_pure (text : string) :
  (exists! label : string, In label labels /\ _classify_intent text = label) /\
  (forall (w1 w2 : World) (v1 v2 : VoiceInterface.t),
     detected_intent w1 text v1 = detected_intent w2 text v2) /\
  (forall (w1 w2 : World) (v : VoiceInterface.t),
     let first := process_command w1 text v in
     let second := process_command w2 text (fst first) in
     dict_get "detected_intent" (snd second)
     = dict_get "detected_intent" (snd first)).
Proof.
  split; [|split].
  - exists (_classify_intent text). split.
    + split; [|reflexivity]. unfold _classify_intent, labels.
      destruct (any_in file_keywords text); [simpl; tauto|].
      destruct (any_in network_keywords text); [simpl; tauto|].
      destruct (any_in system_keywords text); simpl; tauto.
    + intros label [_ H]. exact H.
  - intros. now rewrite !detected_intent_eq.
  - intros. reflexivity.
Qed.

(** ** Result envelopes of the collaborators and handlers *)

Section Collaborators.

Variable w : World.

Lemma failure_envelope (e : pyexn) : envelope (failure e).
Proof. exists false. reflexivity. Qed.

Lemma list_directory_envelope fm path d :
  FileManager.list_directory w fm path = Ret d -> envelope d.
Proof.
  unfold FileManager.list_directory. intros H.
  exn_cases H; close_envelope H.
Qed.

Lemma check_connectivity_envelope nm d :
  NetworkManager.check_connectivity w nm = Ret d -> envelope d.
Proof.
  unfold NetworkManager.check_connectivity. intros H.
  unfold_exn. close_envelope H.
Qed.

Lemma get_system_network_info_envelope nm d :
  NetworkManager.get_system_network_info w nm = Ret d -> envelope d.
Proof.
  unfold NetworkManager.get_system_network_info. intros H.
  exn_cases H; close_envelope H.
Qed.

Lemma web_search_envelope nm query n d :
  NetworkManager.web_search w nm query n = Ret d -> envelope d.
Proof.
  unfold NetworkManager.web_search. intros H.
  exn_cases H; close_envelope H.
Qed.

Lemma get_weather_envelope nm location d :
  NetworkManager.get_weather w nm location = Ret d -> envelope d.
Proof.
  unfold NetworkManager.get_weather. intros H.
  unfold_exn. close_envelope H.
Qed.

(** Neither branch of [get_system_info] puts a ['success'] key in the
    dictionary it returns. *)
Lemma get_system_info_no_success sm :
  exists d, SystemManager.get_system_info w sm = Ret d /\
            dict_get "success" d = None.
Proof.
  unfold SystemManager.get_system_info. unfold_exn.
  destruct (psutil_sample w); eexists; (split; [reflexivity|reflexivity]).
Qed.

Lemma get_system_health_no_success sm d :
  SystemManager.get_system_health w sm = Ret d -> dict_get "success" d = None.
Proof.
  unfold SystemManager.get_system_health. intros H.
  destruct (get_system_info_no_success sm) as [info [E _]].
  rewrite E in H. clear E.
  exn_cases H; injection H as <-; reflexivity.
Qed.

End Collaborators.

Section Handlers.

Variable w : World.

Lemma handle_file_operation_envelope command d :
  _handle_file_operation w command = Ret d -> envelope d.
Proof.
  unfold _handle_file_operation, FileManager.init. unfold_exn.
  destruct (import_module w "core.file_manager"); [|discriminate].
  destruct (os_getcwd w); [|discriminate].
  destruct (contains "list" (lower command) || contains "ls" (lower command)).
  - apply list_directory_envelope.
  - destruct (contains "read" (lower command)); intros H; close_envelope H.
Qed.

Lemma handle_network_operation_envelope command d :
  _handle_network_operation w command = Ret d -> envelope d.
Proof.
  unfold _handle_network_operation, NetworkManager.init. unfold_exn.
  destruct (import_module w "core.network_manager"); [|discriminate].
  destruct (requests_Session w); [|discriminate].
  destruct (contains "search" (lower command)).
  { apply web_search_envelope. }
  destruct (contains "weather" (lower command)).
  { match goal with
    | |- match ?loc with _ => _ end = _ -> _ => destruct loc; [|discriminate]
    end.
    apply get_weather_envelope. }
  destruct (contains "internet" (lower command)
            || contains "connectivity" (lower command)).
  - apply check_connectivity_envelope.
  - apply get_system_network_info_envelope.
Qed.

(** The system handler returns an envelope only on its [process] branch; the
    dictionaries of [get_system_info] and [get_system_health] have no
    ['success'] key. *)
Lemma handle_system_operation_shape command d :
  _handle_system_operation w command = Ret d ->
  dict_get "success" d = None \/ envelope d.
Proof.
  unfold _handle_system_operation. unfold_exn.
  destruct (import_module w "core.system_manager"); [|discriminate].
  destruct (contains "status" (lower command)).
  { destruct (get_system_info_no_success w SystemManager.init) as [i [-> Hi]].
    intros H. injection H as <-. now left. }
  destruct (contains "process" (lower command)).
  { destruct (SystemManager.get_running_processes w SystemManager.init 20);
      [|discriminate].
    intros H. right. close_envelope H. }
  destruct (contains "health" (lower command)).
  - intros H. left. now apply (get_system_health_no_success w SystemManager.init).
  - destruct (get_system_info_no_success w SystemManager.init) as [i [-> Hi]].
    intros H. injection H as <-. now left.
Qed.

Lemma handler_call_shape intent command d :
  handler_call w intent command = Ret d ->
  dict_get "success" d = None \/ envelope d.
Proof.
  unfold handler_call.
  destruct (intent_is intent "file_operation").
  { intros H. right. exact (handle_file_operation_envelope _ _ H). }
  destruct (intent_is intent "network_operation").
  { intros H. right. exact (handle_network_operation_envelope _ _ H). }
  destruct (intent_is intent "system_operation").
  { apply handle_system_operation_shape. }
  intros H. right. close_envelope H.
Qed.

(** [_execute_task] never raises, and a ['success'] entry of its result is a
    boolean. *)
Lemma execute_task_returns task :
  exists d, _execute_task w task = Ret d /\
            (dict_get "success" d = None \/ envelope d).
Proof.
  unfold _execute_task, try_except.
  destruct (handler_call w (task_intent task) (task_command task)) as [d|e] eqn:E.
  - exists d. split; [reflexivity|]. exact (handler_call_shape _ _ _ E).
  - exists (failure e). split; [reflexivity|]. right. apply failure_envelope.
Qed.

Lemma execute_task_raise task e :
  handler_call w (task_intent task) (task_command task) = Raise e ->
  _execute_task w task = Ret (failure e).
Proof. unfold _execute_task, try_except. now intros ->. Qed.

End Handlers.

(** ** The effect of one submission *)

Section Submit.

Variables (w : World) (command : string) (user_intent : option string).

Lemma alter_last {A : Type} (f : A -> A) (l : list A) (x : A) :
  alter f (length l) (l ++ [x]) = l ++ [f x].
Proof.
  induction l as [|y l IH]; [reflexivity|].
  simpl. f_equal. exact IH.
Qed.

(** [submit_task] written out: the three ways through its body. *)
Lemma submit_task_eq (self : AIOrchestrator.t) :
  submit_task w command user_intent self =
  let task := pending_task w command user_intent self in
  let ref := length (heap self) in
  match _execute_task w task with
  | Ret d =>
      match dict_get "success" d with
      | Some v =>
          (with_lists self (heap self ++ [finished_task task d v])
             (tasks self ++ [ref]) (task_history self ++ [ref]),
           Ret d)
      | None =>
          (with_lists self (heap self ++ [task]) (tasks self ++ [ref])
             (task_history self),
           Ret (failure (KeyError "success")))
      end
  | Raise e =>
      (with_lists self (heap self ++ [task]) (tasks self ++ [ref])
         (task_history self),
       Ret (failure e))
  end.
Proof.
  unfold submit_task, try_except_M, mbind, M_bind, bind, gets, new_task,
    tasks_append, lift, update_task, task_history_append, modify, mret, M_ret,
    ret, dict_item, with_lists, finished_task.
  cbn -[_execute_task dict_get failure].
  fold (pending_task w command user_intent self).
  destruct (_execute_task w (pending_task w command user_intent self)) as [d|e];
    [|reflexivity].
  destruct (dict_get "success" d) as [v|]; [|reflexivity].
  cbn -[failure]. rewrite !alter_last. reflexivity.
Qed.

End Submit.

Section Step.

Variables (w : World) (command : string) (user_intent : option string).
Variable self : AIOrchestrator.t.

Let task := pending_task w command user_intent self.
Let ref := length (heap self).
Let out := submit_task w command user_intent self.

(** The outcomes of [submit_task_eq] that occur, with the boolean made
    explicit: [_execute_task] never raises. *)
Lemma submit_task_outcome :
  (exists d b,
     _execute_task w task = Ret d /\ dict_get "success" d = Some (VBool b) /\
     out = (with_lists self (heap self ++ [finished_task task d (VBool b)])
              (tasks self ++ [ref]) (task_history self ++ [ref]),
            Ret d)) \/
  (exists d,
     _execute_task w task = Ret d /\ dict_get "success" d = None /\
     out = (with_lists self (heap self ++ [task]) (tasks self ++ [ref])
              (task_history self),
            Ret (failure (KeyError "success")))).
Proof.
  subst out. rewrite submit_task_eq. fold task ref. cbv zeta.
  destruct (execute_task_returns w task) as [d [-> [Hd | [b Hd]]]]; rewrite Hd.
  - right. exists d. auto.
  - left. exists d, b. auto.
Qed.

Lemma finished_task_terminal d b : terminal (finished_task task d (VBool b)).
Proof.
  split; [|discriminate]. destruct b; simpl; auto.
Qed.

(** What is known after one call, whatever the environment: a new
    dictionary with the next sequence number is in [tasks]; it enters the
    history only with a terminal status. *)
Lemma submit_task_step :
  exists t' : Task,
    heap (fst out) = heap self ++ [t'] /\
    task_id t' = length (tasks self) + 1 /\
    tasks (fst out) = tasks self ++ [ref] /\
    modules (fst out) = modules self /\
    (task_history (fst out) = task_history self \/
     task_history (fst out) = task_history self ++ [ref] /\ terminal t').
Proof.
  destruct submit_task_outcome as [[d [b [_ [_ ->]]]] | [d [_ [_ ->]]]]; simpl.
  - exists (finished_task task d (VBool b)).
    repeat split; auto using finished_task_terminal.
  - exists task. repeat split; auto.
Qed.

End Step.

(** ** Invariant of the orchestrator *)

Lemma wf_init : wf AIOrchestrator.init.
Proof. split; simpl; try constructor. intros i task H. discriminate. Qed.

Lemma wf_history_lt self ref :
  wf self -> ref ∈ task_history self -> ref < length (heap self).
Proof.
  intros Hwf Hin. pose proof (wf_history _ Hwf) as H.
  rewrite Forall_forall in H. destruct (H ref Hin) as [task [Ht _]].
  now apply lookup_lt_Some in Ht.
Qed.

Lemma wf_submit self s : wf self -> wf (submit self s).
Proof.
  intros Hwf. unfold submit.
  destruct (submit_task_step (sub_world s) (sub_command s) (sub_intent s) self)
    as [t' [Hheap [Hid [Htasks [_ Hhist]]]]].
  assert (forall ref, ref ∈ task_history self ->
            exists task, (heap self ++ [t']) !! ref = Some task /\ terminal task)
    as Hold.
  { intros ref Hin. pose proof (wf_history _ Hwf) as H.
    rewrite Forall_forall in H. destruct (H ref Hin) as [task [Ht Hterm]].
    exists task. split; [|exact Hterm].
    rewrite lookup_app_l; [exact Ht | now apply lookup_lt_Some in Ht]. }
  split.
  - rewrite Htasks, Hheap, length_app, (wf_tasks _ Hwf). simpl.
    now rewrite Nat.add_1_r, seq_S.
  - rewrite Hheap. intros i task Hi.
    apply lookup_app_Some in Hi as [Hi | [Hge Hi]].
    + now apply (wf_ids _ Hwf).
    + destruct (i - length (heap self)) as [|k] eqn:E; [|destruct k; discriminate].
      injection Hi as <-. rewrite Hid, (wf_tasks _ Hwf), length_seq. lia.
  - destruct Hhist as [-> | [-> _]]; [exact (wf_sorted _ Hwf)|].
    apply StronglySorted_app_2.
    + intros x1 x2 H1 H2. apply list_elem_of_singleton in H2 as ->.
      now apply wf_history_lt.
    + exact (wf_sorted _ Hwf).
    + repeat constructor.
  - rewrite Hheap. destruct Hhist as [-> | [-> Hterm]].
    + apply Forall_forall. exact Hold.
    + apply Forall_app. split; [apply Forall_forall; exact Hold|].
      constructor; [|constructor]. exists t'. split; [|exact Hterm].
      now rewrite list_lookup_middle.
Qed.

Lemma wf_run subs self : wf self -> wf (run subs self).
Proof.
  revert self. induction subs as [|s subs IH]; intros self Hwf; [exact Hwf|].
  simpl. apply IH, wf_submit, Hwf.
Qed.

Lemma run_snoc subs s self : run (subs ++ [s]) self = submit (run subs self) s.
Proof. unfold run. now rewrite foldl_app. Qed.

Lemma length_heap_run subs :
  length (heap (run subs AIOrchestrator.init)) = length subs.
Proof.
  induction subs as [|s subs IH] using rev_ind; [reflexivity|].
  rewrite run_snoc. unfold submit.
  destruct (submit_task_step (sub_world s) (sub_command s) (sub_intent s)
              (run subs AIOrchestrator.init)) as [t' [-> _]].
  rewrite !length_app, IH. reflexivity.
Qed.

(** ** Dereferencing *)

Section Deref.

Lemma deref_app self refs1 refs2 :
  deref self (refs1 ++ refs2) = deref self refs1 ++ deref self refs2.
Proof. apply omap_app. Qed.

(** Only the heap entries that are referred to matter. *)
Lemma deref_ext self self' refs :
  (forall ref, ref ∈ refs -> heap self' !! ref = heap self !! ref) ->
  deref self' refs = deref self refs.
Proof.
  unfold deref. induction refs as [|r refs IH]; intros H; [reflexivity|].
  csimpl. rewrite (H r) by constructor.
  rewrite IH; [reflexivity|]. intros ref Hin. apply H. now constructor.
Qed.

Lemma deref_valid (P : Task -> Prop) self refs :
  Forall (fun ref => exists task, heap self !! ref = Some task /\ P task) refs ->
  length (deref self refs) = length refs /\
  Forall P (deref self refs) /\
  forall k, deref self (drop k refs) = drop k (deref self refs).
Proof.
  unfold deref. induction 1 as [|r refs [task [Hr HP]] _ [IHlen [IHall IHdrop]]].
  - repeat split; [constructor | now intros [|k]].
  - csimpl. rewrite Hr. repeat split.
    + simpl. now rewrite IHlen.
    + now constructor.
    + intros [|k]; csimpl; [now rewrite Hr | apply IHdrop].
Qed.

Lemma deref_seq_from (pre h : list Task) (self : AIOrchestrator.t) :
  heap self = pre ++ h ->
  deref self (seq (length pre) (length h)) = h.
Proof.
  unfold deref. revert pre. induction h as [|x h IH]; intros pre E; [reflexivity|].
  csimpl. rewrite E, list_lookup_middle by reflexivity. f_equal.
  rewrite <- E.
  replace (S (length pre)) with (length (pre ++ [x]))
    by (rewrite length_app; simpl; lia).
  apply IH. now rewrite <- app_assoc.
Qed.

(** In a well-formed orchestrator [tasks] refers to the whole heap. *)
Lemma task_records_heap self : wf self -> task_records self = heap self.
Proof.
  intros Hwf. unfold task_records. rewrite (wf_tasks _ Hwf).
  now apply (deref_seq_from []).
Qed.

Lemma heap_ids self :
  wf self -> task_id <$> heap self = seq 1 (length (heap self)).
Proof.
  intros Hwf. apply list_eq. intros i. rewrite list_lookup_fmap.
  destruct (heap self !! i) as [task|] eqn:E; simpl.
  - rewrite (wf_ids _ Hwf _ _ E). symmetry.
    rewrite lookup_seq. apply lookup_lt_Some in E. lia.
  - symmetry. apply lookup_seq_ge. now apply lookup_ge_None in E.
Qed.

Lemma deref_ids self refs :
  wf self ->
  Forall (fun ref => exists task, heap self !! ref = Some task /\ terminal task) refs ->
  task_id <$> deref self refs = (fun ref => ref + 1) <$> refs.
Proof.
  intros Hwf. unfold deref.
  induction 1 as [|r refs [task [Hr _]] _ IH]; [reflexivity|].
  csimpl. rewrite Hr. csimpl. rewrite IH. f_equal.
  exact (wf_ids _ Hwf _ _ Hr).
Qed.

End Deref.

(** ** Claims about [submit_task] *)

(** C2. [submit_task] never raises: whatever the command, the intent, the
    state and the environment, it returns a dictionary whose ['success']
    entry is a boolean, so the result is a success or a failure and not
    both. *)
Theorem submit_task_envelope (w : World) (command : string)
    (user_intent : option string) (self : AIOrchestrator.t) :
  exists d : pydict,
    snd (submit_task w command user_intent self) = Ret d /\
    envelope d /\
    (is_success d \/ is_failure d) /\
    ~ (is_success d /\ is_failure d).
Proof.
  assert (forall d, envelope d ->
            envelope d /\ (is_success d \/ is_failure d) /\
            ~ (is_success d /\ is_failure d)) as Hxor.
  { intros d [b Hb]. split; [now exists b|]. unfold is_success, is_failure.
    rewrite Hb. split; [destruct b; auto|]. intros [H1 H2]. congruence. }
  destruct (submit_task_outcome w command user_intent self)
    as [[d [b [_ [Hb ->]]]] | [d [_ [_ ->]]]]; simpl.
  - exists d. split; [reflexivity|]. apply Hxor. now exists b.
  - eexists. split; [reflexivity|]. apply Hxor, failure_envelope.
Qed.

Lemma history_records_snoc self t' ts :
  wf self ->
  history_records
    (with_lists self (heap self ++ [t']) ts
       (task_history self ++ [length (heap self)]))
  = history_records self ++ [t'].
Proof.
  intros Hwf. unfold history_records. simpl. rewrite deref_app. f_equal.
  - apply deref_ext. intros ref Hin. simpl.
    apply lookup_app_l. now apply wf_history_lt.
  - unfold deref. csimpl. now rewrite list_lookup_middle.
Qed.

(** How the history grows in one call: by one record when the handler's
    result has a ['success'] key, and not at all when it has none. *)
Lemma submit_task_history_length w command user_intent self :
  exists d,
    _execute_task w (pending_task w command user_intent self) = Ret d /\
    length (task_history (fst (submit_task w command user_intent self)))
    = length (task_history self)
      + match dict_get "success" d with Some _ => 1 | None => 0 end.
Proof.
  destruct (submit_task_outcome w command user_intent self)
    as [[d [b [Hd [Hb ->]]]] | [d [Hd [Hn ->]]]]; exists d; simpl.
  - rewrite Hb, length_app. auto.
  - rewrite Hn. auto.
Qed.

(** C1, at the input on which it fails.  With the intent
    [system_operation] and the command "system status" the handler returns
    the dictionary of [get_system_info], which has no ['success'] key; the
    lookup [result['success']] raises [KeyError], the outer [except] returns
    a failure envelope, and the history is left as it was although the task
    was appended to [tasks]. *)
Theorem submit_system_status_history_unchanged (w : World)
    (self : AIOrchestrator.t) :
  import_module w "core.system_manager" = Ret tt ->
  let out := submit_task w "system status" (Some "system_operation") self in
  task_history (fst out) = task_history self /\
  tasks (fst out) = tasks self ++ [length (heap self)] /\
  snd out = Ret [("success", VBool false); ("error", VStr "'success'")].
Proof.
  intros Himp. cbv zeta. rewrite submit_task_eq. cbv zeta.
  unfold _execute_task, handler_call, _handle_system_operation. simpl.
  rewrite Himp. unfold_exn.
  destruct (get_system_info_no_success w SystemManager.init) as [d [-> ->]].
  simpl. auto.
Qed.

Lemma submit_system_status_history_unchanged_witness :
  import_module example_world "core.system_manager" = Ret tt /\
  let out :=
    submit_task example_world "system status" (Some "system_operation")
      AIOrchestrator.init in
  task_history (fst out) = [] /\
  tasks (fst out) = [0] /\
  snd out = Ret [("success", VBool false); ("error", VStr "'success'")].
Proof.
  split; [reflexivity|].
  apply (submit_system_status_history_unchanged example_world AIOrchestrator.init).
  reflexivity.
Defined.

(** C5. When the handler selected by the intent raises an exception [e],
    [submit_task] returns the failure envelope whose error is [str(e)], and
    the history gains exactly one record, with status [failed] and that
    envelope as its result. *)
Theorem handler_exception_recorded (subs : list Submission) (w : World)
    (command : string) (user_intent : option string) (e : pyexn) :
  handler_call w user_intent command = Raise e ->
  let self := run subs AIOrchestrator.init in
  let out := submit_task w command user_intent self in
  snd out = Ret [("success", VBool false); ("error", VStr (str e))] /\
  exists task : Task,
    history_records (fst out) = history_records self ++ [task] /\
    task_status task = "failed" /\
    task_command task = command /\
    task_result task = Some [("success", VBool false); ("error", VStr (str e))].
Proof.
  intros Hraise self out. subst out. rewrite submit_task_eq. cbv zeta.
  rewrite (execute_task_raise w _ e) by exact Hraise. simpl.
  split; [reflexivity|]. eexists. split.
  - apply history_records_snoc. apply wf_run, wf_init.
  - simpl. auto.
Qed.

Lemma handler_exception_recorded_witness :
  handler_call no_requests_world (Some "network_operation") "weather in Paris"
  = Raise (ImportError "No module named 'requests'") /\
  let out :=
    submit_task no_requests_world "weather in Paris" (Some "network_operation")
      AIOrchestrator.init in
  snd out = Ret [("success", VBool false);
                 ("error", VStr "No module named 'requests'")] /\
  exists task : Task,
    history_records (fst out) = [] ++ [task] /\
    task_status task = "failed" /\
    task_command task = "weather in Paris" /\
    task_result task = Some [("success", VBool false);
                             ("error", VStr "No module named 'requests'")].
Proof.
  split; [reflexivity|].
  apply (handler_exception_recorded [] no_requests_world "weather in Paris"
           (Some "network_operation")
           (ImportError "No module named 'requests'")).
  reflexivity.
Defined.

(** C6. After any sequence of calls of [submit_task] on a new orchestrator,
    every reference in the history points to a record, and every such record
    has status [completed] or [failed] and a result. *)
Theorem history_records_terminal (subs : list Submission) :
  let self := run subs AIOrchestrator.init in
  length (history_records self) = length (task_history self) /\
  Forall terminal (history_records self).
Proof.
  intros self.
  assert (wf self) as Hwf by apply wf_run, wf_init.
  destruct (deref_valid terminal self _ (wf_history _ Hwf)) as [Hlen [Hall _]].
  split; assumption.
Qed.

Lemma StronglySorted_seq (j n : nat) : StronglySorted lt (seq j n).
Proof.
  revert j. induction n as [|n IH]; intros j; simpl; constructor.
  - apply IH.
  - apply Forall_forall. intros x Hx. apply elem_of_seq in Hx. lia.
Qed.

(** C7. After any sequence of calls of [submit_task] on a new orchestrator
    the ids of the task records are 1, 2, ..., one per call in call order:
    they are strictly increasing and pairwise distinct, and so are the ids
    of the records in the history. *)
Theorem task_ids_strictly_increasing (subs : list Submission) :
  let self := run subs AIOrchestrator.init in
  task_id <$> task_records self = seq 1 (length subs) /\
  StronglySorted lt (task_id <$> task_records self) /\
  NoDup (task_id <$> task_records self) /\
  StronglySorted lt (task_id <$> history_records self).
Proof.
  intros self.
  assert (wf self) as Hwf by apply wf_run, wf_init.
  assert (task_id <$> task_records self = seq 1 (length subs)) as Hids.
  { rewrite task_records_heap, heap_ids by exact Hwf.
    unfold self. now rewrite length_heap_run. }
  split; [exact Hids|]. rewrite Hids.
  split; [apply StronglySorted_seq|]. split; [apply NoDup_seq|].
  unfold history_records.
  rewrite (deref_ids self _ Hwf (wf_history _ Hwf)).
  apply (StronglySorted_fmap _ lt lt); [intros; lia | exact (wf_sorted _ Hwf)].
Qed.

Lemma intent_is_false (intent : option string) (label : string) :
  intent <> Some label -> intent_is intent label = false.
Proof.
  destruct intent as [s|]; simpl; [|reflexivity].
  intros H. apply String.eqb_neq. congruence.
Qed.

(** C10. With no intent ([None]) or an intent other than the three known
    labels, whatever the command text says, the dispatcher calls the general
    handler and returns its success envelope, whose message is
    "Command executed: " followed by the command. *)
Theorem unknown_intent_general (w : World) (command : string)
    (user_intent : option string) (self : AIOrchestrator.t) :
  user_intent <> Some "file_operation" ->
  user_intent <> Some "network_operation" ->
  user_intent <> Some "system_operation" ->
  handler_call w user_intent command = _handle_general_command w command /\
  snd (submit_task w command user_intent self)
  = Ret [("success", VBool true);
         ("message", VStr ("Command executed: " +:+ command));
         ("timestamp", VFloat (time_time w "_handle_general_command"))].
Proof.
  intros Hf Hn Hs.
  assert (handler_call w user_intent command = _handle_general_command w command)
    as Hcall.
  { unfold handler_call.
    now rewrite !intent_is_false by assumption. }
  split; [exact Hcall|].
  rewrite submit_task_eq. cbv zeta. unfold _execute_task. simpl task_intent.
  simpl task_command. rewrite Hcall. reflexivity.
Qed.

Lemma unknown_intent_general_witness :
  (None <> Some "file_operation" /\ None <> Some "network_operation" /\
   None <> Some "system_operation") /\
  handler_call example_world None "list files"
  = _handle_general_command example_world "list files" /\
  snd (submit_task example_world "list files" None AIOrchestrator.init)
  = Ret [("success", VBool true);
         ("message", VStr "Command executed: list files");
         ("timestamp", VFloat (Qmake 1000 1))].
Proof.
  split; [repeat split; discriminate|].
  apply (unknown_intent_general example_world "list files" None
           AIOrchestrator.init); discriminate.
Defined.

(** C8. The text "weather in Paris" is classified as [network_operation],
    and submitting it with that intent, in an environment where the network
    manager can be imported and constructed, returns a success envelope
    whose weather record has the location "Paris". *)
Theorem weather_in_Paris (w : World) (self : AIOrchestrator.t) :
  import_module w "core.network_manager" = Ret tt ->
  requests_Session w = Ret tt ->
  (forall v : VoiceInterface.t,
     detected_intent w "weather in Paris" v = Some (VStr "network_operation")) /\
  exists (d weather : pydict),
    snd (submit_task w "weather in Paris" (Some "network_operation") self) = Ret d /\
    is_success d /\
    dict_get "weather" d = Some (VDict weather) /\
    dict_get "location" weather = Some (VStr "Paris").
Proof.
  intros Himp Hsession. split; [reflexivity|].
  rewrite submit_task_eq. cbv zeta.
  unfold _execute_task, handler_call, _handle_network_operation,
    NetworkManager.init. simpl.
  rewrite Himp. unfold_exn. rewrite Hsession. simpl.
  eexists _, _. repeat split.
Qed.

Lemma weather_in_Paris_witness :
  (import_module example_world "core.network_manager" = Ret tt /\
   requests_Session example_world = Ret tt) /\
  (forall v : VoiceInterface.t,
     detected_intent example_world "weather in Paris" v
     = Some (VStr "network_operation")) /\
  exists (d weather : pydict),
    snd (submit_task example_world "weather in Paris" (Some "network_operation")
           AIOrchestrator.init) = Ret d /\
    is_success d /\
    dict_get "weather" d = Some (VDict weather) /\
    dict_get "location" weather = Some (VStr "Paris").
Proof.
  split; [split; reflexivity|].
  apply (weather_in_Paris example_world AIOrchestrator.init); reflexivity.
Defined.

(** ** The history slice *)

Lemma slice_from_zero {A : Type} (l : list A) : slice_from 0 l = l.
Proof.
  unfold slice_from. simpl.
  replace (Z.to_nat (0 `min` Z.of_nat (length l))) with 0 by lia.
  reflexivity.
Qed.

Lemma slice_from_negative {A : Type} (k : nat) (l : list A) :
  0 < k -> slice_from (- Z.of_nat k) l = drop (length l - k) l.
Proof.
  intros Hk. unfold slice_from.
  destruct (Z.ltb_spec (- Z.of_nat k) 0) as [_|H]; [|lia].
  f_equal. lia.
Qed.

(** For a positive limit the slice is what the name says: the last [limit]
    records, or all of them when there are fewer, in submission order. *)
Lemma get_task_history_positive (subs : list Submission) (limit : nat) :
  0 < limit ->
  let self := run subs AIOrchestrator.init in
  get_task_history (Z.of_nat limit) self
  = drop (length (history_records self) - limit) (history_records self) /\
  length (get_task_history (Z.of_nat limit) self) <= limit.
Proof.
  intros Hpos self.
  assert (wf self) as Hwf by apply wf_run, wf_init.
  destruct (deref_valid terminal self _ (wf_history _ Hwf)) as [Hlen [_ Hdrop]].
  unfold get_task_history. rewrite slice_from_negative by exact Hpos.
  rewrite Hdrop. unfold history_records. rewrite Hlen.
  split; [reflexivity|]. rewrite length_drop. lia.
Qed.

(** C4, at the input on which it fails.  [get_task_history(0)] evaluates the
    slice [task_history[-0:]], which is the whole list: after one submission
    it returns one record, not at most zero. *)
Theorem get_task_history_zero :
  (forall self : AIOrchestrator.t,
     get_task_history 0 self = history_records self) /\
  (forall (w : World) (command : string),
     let self :=
       run [{| sub_world := w; sub_command := command; sub_intent := None |}]
         AIOrchestrator.init in
     length (get_task_history 0 self) = 1).
Proof.
  split.
  - intros self. unfold get_task_history. simpl. now rewrite slice_from_zero.
  - intros w command. reflexivity.
Qed.

(** * Further properties *)

(** ** The dispatcher *)

Section Dispatcher.

Variables (w : World) (command : string) (user_intent : option string).

(** Execution reads the command and the intent of the task and nothing
    else. *)
Lemma execute_pending_task (self : AIOrchestrator.t) :
  _execute_task w (pending_task w command user_intent self)
  = try_except (handler_call w user_intent command)
      (fun e => mret (failure e)).
Proof. reflexivity. Qed.

Lemma history_records_same self t' ts :
  wf self ->
  history_records (with_lists self (heap self ++ [t']) ts (task_history self))
  = history_records self.
Proof.
  intros Hwf. unfold history_records. simpl.
  apply deref_ext. intros ref Hin. simpl.
  apply lookup_app_l. now apply wf_history_lt.
Qed.

Lemma wf_submit_task self :
  wf self -> wf (fst (submit_task w command user_intent self)).
Proof.
  intros Hwf.
  exact (wf_submit self
           {| sub_world := w; sub_command := command;
              sub_intent := user_intent |} Hwf).
Qed.

(** The two outcomes of a call, on the records. *)
Lemma submit_task_records (self : AIOrchestrator.t) :
  wf self ->
  let out := submit_task w command user_intent self in
  exists (d : pydict) (task : Task),
    snd out = Ret d /\
    task_records (fst out) = task_records self ++ [task] /\
    task_id task = length (tasks self) + 1 /\
    task_command task = command /\
    task_intent task = user_intent /\
    ((exists b : bool,
        _execute_task w (pending_task w command user_intent self) = Ret d /\
        dict_get "success" d = Some (VBool b) /\
        history_records (fst out) = history_records self ++ [task] /\
        task_result task = Some d /\
        task_status task = (if b then "completed" else "failed")) \/
     (exists d0 : pydict,
        _execute_task w (pending_task w command user_intent self) = Ret d0 /\
        dict_get "success" d0 = None /\
        history_records (fst out) = history_records self /\
        pending task /\
        d = failure (KeyError "success"))).
Proof.
  intros Hwf out.
  assert (wf (fst out)) as Hwf' by now apply wf_submit_task.
  rewrite (task_records_heap _ Hwf), (task_records_heap _ Hwf').
  subst out. clear Hwf'.
  destruct (submit_task_outcome w command user_intent self)
    as [[d [b [Hd [Hb ->]]]] | [d [Hd [Hn ->]]]]; simpl.
  - exists d, (finished_task (pending_task w command user_intent self) d (VBool b)).
    do 5 (split; [reflexivity|]). left. exists b.
    split; [exact Hd|]. split; [exact Hb|].
    split; [now apply history_records_snoc|].
    split; [reflexivity|]. now destruct b.
  - exists (failure (KeyError "success")), (pending_task w command user_intent self).
    do 5 (split; [reflexivity|]). right. exists d.
    split; [exact Hd|]. split; [exact Hn|].
    split; [now apply history_records_same|].
    split; [split|]; reflexivity.
Qed.

End Dispatcher.

Lemma length_tasks_run subs :
  length (tasks (run subs AIOrchestrator.init)) = length subs.
Proof.
  assert (wf (run subs AIOrchestrator.init)) as Hwf by apply wf_run, wf_init.
  now rewrite (wf_tasks _ Hwf), length_seq, length_heap_run.
Qed.

(** X1. The envelope [submit_task] returns depends on the environment, the
    command and the intent only: the tasks, the history and the registered
    modules of the orchestrator have no influence on it, and a call leaves
    the registered modules as they are. *)
Theorem submit_task_result_stateless (w : World) (command : string)
    (user_intent : option string) (self self' : AIOrchestrator.t) :
  snd (submit_task w command user_intent self)
  = snd (submit_task w command user_intent self') /\
  modules (fst (submit_task w command user_intent self)) = modules self.
Proof.
  rewrite !submit_task_eq. cbv zeta. rewrite !execute_pending_task.
  destruct (try_except (handler_call w user_intent command)
              (fun e => mret (failure e))) as [d|e]; [|split; reflexivity].
  destruct (dict_get "success" d); split; reflexivity.
Qed.

(** X2. After any sequence of calls, one more call adds one record to
    [tasks], with the next id, the command and the intent.  Either that
    record also enters the history, holding the returned envelope as its
    result and the status [completed] for a success and [failed] for a
    failure; or the handler's result had no ['success'] key, and then the
    history is unchanged, the record stays [pending] without a result, and
    the returned envelope is the failure whose error is ['success'] in
    quotes. *)
Theorem submit_task_two_outcomes (subs : list Submission) (w : World)
    (command : string) (user_intent : option string) :
  let self := run subs AIOrchestrator.init in
  let out := submit_task w command user_intent self in
  exists (d : pydict) (task : Task),
    snd out = Ret d /\
    task_records (fst out) = task_records self ++ [task] /\
    task_id task = length subs + 1 /\
    task_command task = command /\
    task_intent task = user_intent /\
    ((history_records (fst out) = history_records self ++ [task] /\
      task_result task = Some d /\
      (is_success d /\ task_status task = "completed" \/
       is_failure d /\ task_status task = "failed")) \/
     (history_records (fst out) = history_records self /\
      pending task /\
      d = [("success", VBool false); ("error", VStr "'success'")])).
Proof.
  intros self out.
  assert (wf self) as Hwf by apply wf_run, wf_init.
  destruct (submit_task_records w command user_intent self Hwf)
    as [d [task [Hret [Hrec [Hid [Hc [Hi Hcase]]]]]]].
  exists d, task. repeat split; try assumption.
  - rewrite Hid. unfold self. now rewrite length_tasks_run.
  - destruct Hcase as [[b [_ [Hb [Hh [Hr Hs]]]]] | [d0 [_ [_ [Hh [Hp ->]]]]]].
    + left. repeat split; try assumption.
      destruct b; [left | right]; split; assumption.
    + right. repeat split; solve [assumption | apply Hp].
Qed.

Lemma handler_call_envelope (w : World) (intent : option string)
    (command : string) (d : pydict) :
  intent <> Some "system_operation" ->
  handler_call w intent command = Ret d -> envelope d.
Proof.
  intros Hsys. unfold handler_call.
  destruct (intent_is intent "file_operation").
  { apply handle_file_operation_envelope. }
  destruct (intent_is intent "network_operation").
  { apply handle_network_operation_envelope. }
  rewrite (intent_is_false _ _ Hsys).
  intros H. close_envelope H.
Qed.

(** X3. A submission whose intent is not [system_operation] is always
    recorded: the history gains exactly one record, whose result is the
    returned envelope and whose status is [completed] when the envelope is a
    success and [failed] when it is a failure. *)
Theorem submit_task_recorded (subs : list Submission) (w : World)
    (command : string) (user_intent : option string) :
  user_intent <> Some "system_operation" ->
  let self := run subs AIOrchestrator.init in
  let out := submit_task w command user_intent self in
  exists (d : pydict) (task : Task),
    snd out = Ret d /\
    history_records (fst out) = history_records self ++ [task] /\
    task_result task = Some d /\
    task_command task = command /\
    (is_success d /\ task_status task = "completed" \/
     is_failure d /\ task_status task = "failed").
Proof.
  intros Hsys self out.
  assert (wf self) as Hwf by apply wf_run, wf_init.
  destruct (submit_task_records w command user_intent self Hwf)
    as [d [task [Hret [_ [_ [Hc [_ Hcase]]]]]]].
  exists d, task.
  destruct Hcase as [[b [_ [Hb [Hh [Hr Hs]]]]] | [d0 [Hd0 [Hn _]]]].
  - repeat split; try assumption.
    destruct b; [left | right]; split; assumption.
  - exfalso. rewrite execute_pending_task in Hd0. unfold try_except in Hd0.
    destruct (handler_call w user_intent command) as [d1|e] eqn:E.
    + injection Hd0 as ->.
      destruct (handler_call_envelope _ _ _ _ Hsys E) as [b Hb]. congruence.
    + injection Hd0 as <-. discriminate Hn.
Qed.

Lemma submit_task_recorded_witness :
  Some "file_operation" <> Some "system_operation" /\
  let self := run [] AIOrchestrator.init in
  let out := submit_task example_world "read notes" (Some "file_operation") self in
  exists (d : pydict) (task : Task),
    snd out = Ret d /\
    history_records (fst out) = history_records self ++ [task] /\
    task_result task = Some d /\
    task_command task = "read notes" /\
    (is_success d /\ task_status task = "completed" \/
     is_failure d /\ task_status task = "failed").
Proof.
  split; [discriminate|].
  apply (submit_task_recorded [] example_world "read notes"
           (Some "file_operation")).
  discriminate.
Defined.

(** [get_system_health] has no [try] of its own and still never raises:
    the comparisons are between numbers, or use the default 0. *)
Lemma get_system_health_returns (w : World) (sm : SystemManager.t) :
  exists d, SystemManager.get_system_health w sm = Ret d.
Proof.
  unfold SystemManager.get_system_health, SystemManager.get_system_info.
  unfold_exn. destruct (psutil_sample w); simpl; eauto.
Qed.

(** X4. With the intent [system_operation] and the system manager
    importable, only the [process] branch of the handler is recorded: when
    the folded command contains "process" and not "status" the call is a
    success and enters the history; in every other case the history is
    unchanged and the call returns the failure whose error is ['success'] in
    quotes, whatever [psutil] answered. *)
Theorem system_operation_recorded_iff (w : World) (command : string)
    (self : AIOrchestrator.t) :
  import_module w "core.system_manager" = Ret tt ->
  let out := submit_task w command (Some "system_operation") self in
  (contains "status" (lower command) = false ->
   contains "process" (lower command) = true ->
   task_history (fst out) = task_history self ++ [length (heap self)] /\
   exists d, snd out = Ret d /\ is_success d) /\
  (contains "status" (lower command) = true \/
   contains "process" (lower command) = false ->
   task_history (fst out) = task_history self /\
   snd out = Ret [("success", VBool false); ("error", VStr "'success'")]).
Proof.
  intros Himp out. subst out. rewrite submit_task_eq. cbv zeta.
  rewrite execute_pending_task.
  unfold handler_call, _handle_system_operation. simpl intent_is. cbv iota.
  rewrite Himp. unfold_exn.
  destruct (get_system_info_no_success w SystemManager.init) as [info [Hinfo Hno]].
  split.
  - intros -> ->.
    destruct (SystemManager.get_running_processes w SystemManager.init 20)
      as [ps|e] eqn:E.
    + simpl. split; [reflexivity|]. eexists. split; reflexivity.
    + unfold SystemManager.get_running_processes, try_except in E.
      destruct (psutil_processes w 20); discriminate.
  - intros Hcase.
    destruct (contains "status" (lower command)) eqn:Es.
    + rewrite Hinfo. simpl. rewrite Hno. auto.
    + destruct Hcase as [Hcase | ->]; [discriminate|].
      destruct (contains "health" (lower command)).
      * destruct (get_system_health_returns w SystemManager.init) as [d E].
        rewrite E. simpl.
        rewrite (get_system_health_no_success _ _ _ E). auto.
      * rewrite Hinfo. simpl. rewrite Hno. auto.
Qed.

Lemma system_operation_recorded_iff_witness :
  import_module example_world "core.system_manager" = Ret tt /\
  task_history
    (fst (submit_task example_world "show processes" (Some "system_operation")
            AIOrchestrator.init)) = [0] /\
  task_history
    (fst (submit_task example_world "system health" (Some "system_operation")
            AIOrchestrator.init)) = [].
Proof.
  split; [reflexivity|]. split.
  - apply (proj1 (system_operation_recorded_iff example_world "show processes"
                    AIOrchestrator.init eq_refl)); reflexivity.
  - apply (proj2 (system_operation_recorded_iff example_world "system health"
                    AIOrchestrator.init eq_refl)). right. reflexivity.
Defined.

(** ** The history against the task list *)

Lemma terminal_not_pending (task : Task) :
  terminal task -> task_status task <> "pending".
Proof. intros [[H | H] _]; rewrite H; discriminate. Qed.

Lemma history_is_filter (subs : list Submission) :
  let self := run subs AIOrchestrator.init in
  Forall (fun task => terminal task \/ pending task) (task_records self) /\
  history_records self
  = filter (fun task => task_status task <> "pending") (task_records self).
Proof.
  induction subs as [|s subs [IHall IHeq]] using rev_ind.
  - split; [constructor | reflexivity].
  - cbv zeta. rewrite run_snoc. unfold submit.
    assert (wf (run subs AIOrchestrator.init)) as Hwf by apply wf_run, wf_init.
    destruct (submit_task_records (sub_world s) (sub_command s) (sub_intent s)
                _ Hwf) as [d [task [_ [-> [_ [_ [_ Hcase]]]]]]].
    rewrite filter_app, <- IHeq.
    destruct Hcase as [[b [_ [_ [-> [Hr Hs]]]]] | [d0 [_ [_ [-> [Hp _]]]]]].
    + assert (terminal task) as Ht.
      { split; [destruct b; auto | rewrite Hr; discriminate]. }
      split.
      * apply Forall_app. split; [exact IHall|].
        constructor; [now left | constructor].
      * f_equal. rewrite filter_cons_True by now apply terminal_not_pending.
        reflexivity.
    + split.
      * apply Forall_app. split; [exact IHall|].
        constructor; [now right | constructor].
      * rewrite filter_cons_False by (intros H; apply H, Hp).
        now rewrite app_nil_r.
Qed.

(** X5. After any sequence of calls every task record is either finished
    (status [completed] or [failed], with a result) or still [pending]
    without a result, and the history is exactly the finished records, in
    submission order: a task whose handler result lacked the ['success'] key
    stays [pending] in [tasks] for good. *)
Theorem history_is_finished_tasks (subs : list Submission) :
  let self := run subs AIOrchestrator.init in
  Forall (fun task => terminal task \/ pending task) (task_records self) /\
  history_records self
  = filter (fun task => task_status task <> "pending") (task_records self) /\
  length (task_records self) = length subs.
Proof.
  intros self. destruct (history_is_filter subs) as [Hall Heq].
  split; [exact Hall|]. split; [exact Heq|].
  assert (wf self) as Hwf by apply wf_run, wf_init.
  rewrite (task_records_heap _ Hwf). apply length_heap_run.
Qed.

(** ** [get_system_status] *)

Lemma status_counts (l : list Task) :
  Forall terminal l ->
  length (filter (fun task => task_status task = "completed") l)
  + length (filter (fun task => task_status task = "failed") l)
  = length l.
Proof.
  induction 1 as [|task l [[Hs | Hs] _] _ IH]; [reflexivity| |].
  - rewrite filter_cons_True by exact Hs.
    rewrite filter_cons_False by (rewrite Hs; discriminate).
    simpl. lia.
  - rewrite filter_cons_False by (rewrite Hs; discriminate).
    rewrite filter_cons_True by exact Hs.
    simpl. lia.
Qed.

(** X6. In the status summary after any sequence of [n] calls,
    [active_tasks] is [n] (tasks are never removed), [total_tasks] is the
    sum of [successful_tasks] and [failed_tasks], and [total_tasks] is at
    most [active_tasks]. *)
Theorem get_system_status_counts (subs : list Submission) :
  let status := get_system_status (run subs AIOrchestrator.init) in
  exists total successful failed : Z,
    dict_int "total_tasks" status = Some total /\
    dict_int "successful_tasks" status = Some successful /\
    dict_int "failed_tasks" status = Some failed /\
    dict_int "active_tasks" status = Some (Z.of_nat (length subs)) /\
    (total = successful + failed)%Z /\
    (0 <= total <= Z.of_nat (length subs))%Z.
Proof.
  intros status. subst status. unfold get_system_status.
  set (self := run subs AIOrchestrator.init).
  assert (wf self) as Hwf by apply wf_run, wf_init.
  destruct (deref_valid terminal self _ (wf_history _ Hwf)) as [Hlen [Hterm _]].
  do 3 eexists. unfold dict_int. simpl.
  split; [reflexivity|]. split; [reflexivity|]. split; [reflexivity|].
  split; [unfold self; now rewrite length_tasks_run|].
  rewrite <- Nat2Z.inj_add, (status_counts _ Hterm), Hlen.
  split; [reflexivity|]. split; [lia|].
  apply inj_le.
  assert (length (task_history self) <= length (heap self)) as Hle.
  { pose proof (wf_sorted _ Hwf) as Hs.
    assert (NoDup (task_history self)) as Hnd.
    { clear -Hs. induction Hs as [|x l _ IH Hx]; constructor; [|exact IH].
      intros Hin. rewrite Forall_forall in Hx. specialize (Hx x Hin). lia. }
    replace (length (heap self)) with (length (seq 0 (length (heap self))))
      by apply length_seq.
    apply submseteq_length, NoDup_submseteq; [exact Hnd|].
    intros x Hx. apply elem_of_seq. pose proof (wf_history_lt _ _ Hwf Hx). lia. }
  unfold self in *. now rewrite length_heap_run in Hle.
Qed.

(** ** More on the history slice *)




(** ** [register_module] *)

Section Registry.

Context {V : Type}.




End Registry.




(** ** The voice interface *)

Section Classifier.

Lemma to_lower_idempotent (c : ascii) : to_lower (to_lower c) = to_lower c.
Proof.
  destruct c as [[] [] [] [] [] [] [] []]; reflexivity.
Qed.

Lemma lower_idempotent (s : string) : lower (lower s) = lower s.
Proof.
  induction s as [|c s IH]; simpl; [reflexivity|].
  now rewrite to_lower_idempotent, IH.
Qed.

Lemma lower_app (s1 s2 : string) : lower (s1 +:+ s2) = lower s1 +:+ lower s2.
Proof.
  induction s1 as [|c s1 IH]; [reflexivity|].
  change (String (to_lower c) (lower (s1 +:+ s2))
          = String (to_lower c) (lower s1 +:+ lower s2)).
  now rewrite IH.
Qed.

Lemma string_app_assoc (s1 s2 s3 : string) :
  (s1 +:+ s2) +:+ s3 = s1 +:+ (s2 +:+ s3).
Proof.
  induction s1 as [|c s1 IH]; [reflexivity|].
  change (String c ((s1 +:+ s2) +:+ s3) = String c (s1 +:+ (s2 +:+ s3))).
  now rewrite IH.
Qed.

Lemma Substring_extend (k text pre post : string) :
  Substring k text -> Substring k (pre +:+ text +:+ post).
Proof.
  intros [a [b ->]]. exists (pre +:+ a), (b +:+ post).
  now rewrite !string_app_assoc.
Qed.

Lemma any_in_extend (keywords : list string) (text pre post : string) :
  any_in keywords text = true ->
  any_in keywords (pre +:+ text +:+ post) = true.
Proof.
  rewrite !any_in_spec. intros [k [Hk Hs]]. exists k.
  split; [exact Hk | now apply Substring_extend].
Qed.

Lemma classify_intent_rank (text : string) :
  intent_rank (_classify_intent text)
  = if any_in file_keywords text then 3
    else if any_in network_keywords text then 2
    else if any_in system_keywords text then 1
    else 0.
Proof.
  unfold _classify_intent.
  destruct (any_in file_keywords text); [reflexivity|].
  destruct (any_in network_keywords text); [reflexivity|].
  destruct (any_in system_keywords text); reflexivity.
Qed.

End Classifier.

(** X9. Classification ignores letter case: a text and its lower-case form
    are given the same intent, and so are any two texts that differ in case
    only. *)
Theorem detected_intent_case_insensitive (w : World) (v : VoiceInterface.t)
    (text text' : string) :
  detected_intent w (lower text) v = detected_intent w text v /\
  (lower text = lower text' ->
   detected_intent w text v = detected_intent w text' v).
Proof.
  rewrite !detected_intent_eq, lower_idempotent.
  split; [reflexivity | now intros ->].
Qed.

Lemma detected_intent_case_insensitive_witness :
  lower "List Files" = lower "LIST FILES" /\
  detected_intent example_world "List Files" VoiceInterface.init
  = detected_intent example_world "LIST FILES" VoiceInterface.init.
Proof.
  split; [reflexivity|].
  apply (proj2 (detected_intent_case_insensitive example_world
                  VoiceInterface.init "List Files" "LIST FILES")).
  reflexivity.
Defined.

(** X10. Adding words before or after a text never lowers the priority
    class of its intent: in the order general < system < network < file the
    label of the longer text is at least that of the shorter one.  In
    particular a text classified as a file operation stays one whatever is
    put around it. *)
Theorem classify_intent_monotone (text pre post : string) :
  intent_rank (_classify_intent (lower text))
  <= intent_rank (_classify_intent (lower (pre +:+ text +:+ post))) /\
  (_classify_intent (lower text) = "file_operation" ->
   _classify_intent (lower (pre +:+ text +:+ post)) = "file_operation").
Proof.
  rewrite !lower_app.
  assert (forall kws, any_in kws (lower text) = true ->
            any_in kws (lower pre +:+ lower text +:+ lower post) = true) as Hext.
  { intros kws. apply any_in_extend. }
  split.
  - rewrite !classify_intent_rank.
    destruct (any_in file_keywords (lower text)) eqn:Ef.
    { now rewrite (Hext _ Ef). }
    destruct (any_in network_keywords (lower text)) eqn:En.
    { rewrite (Hext _ En).
      repeat match goal with
             | |- context [if ?b then _ else _] => destruct b
             end; lia. }
    destruct (any_in system_keywords (lower text)) eqn:Es.
    { rewrite (Hext _ Es).
      repeat match goal with
             | |- context [if ?b then _ else _] => destruct b
             end; lia. }
    lia.
  - unfold _classify_intent.
    destruct (any_in file_keywords (lower text)) eqn:Ef.
    { now rewrite (Hext _ Ef). }
    destruct (any_in network_keywords (lower text)); [discriminate|].
    destruct (any_in system_keywords (lower text)); discriminate.
Qed.

Lemma classify_intent_monotone_witness :
  _classify_intent (lower "my files") = "file_operation" /\
  _classify_intent (lower ("search for " +:+ "my files" +:+ " on the network"))
  = "file_operation".
Proof.
  split; [reflexivity|].
  apply (proj2 (classify_intent_monotone "my files" "search for "
                  " on the network")).
  reflexivity.
Defined.

(** X11. The execution plan in the answer of [process_command] is always
    the plan stored under the detected intent; the default "Standard
    execution plan" is never returned.  The answer repeats the text as it
    was typed. *)
Theorem process_command_plan (w : World) (text : string) (v : VoiceInterface.t) :
  let answer := snd (process_command w text v) in
  dict_get "execution_plan" answer
  = dict_get (_classify_intent (lower text)) plans /\
  dict_get "execution_plan" answer <> Some (VStr "Standard execution plan") /\
  dict_get "original_text" answer = Some (VStr text).
Proof.
  cbv zeta. unfold process_command, _create_execution_plan, _classify_intent.
  destruct (any_in file_keywords (lower text));
    [|destruct (any_in network_keywords (lower text));
      [|destruct (any_in system_keywords (lower text))]];
    (split; [reflexivity|]; split; [discriminate | reflexivity]).
Qed.

Lemma command_history_process_command (w : World) (text : string)
    (v : VoiceInterface.t) :
  command_history (fst (process_command w text v))
  = command_history v ++
    [[("text", VStr text); ("intent", VStr (_classify_intent (lower text)));
      ("timestamp", VFloat (time_time w "process_command"))]].
Proof. reflexivity. Qed.

Lemma process_all_snoc (inputs : list (World * string)) (w : World)
    (text : string) (v : VoiceInterface.t) :
  process_all (inputs ++ [(w, text)]) v
  = fst (process_command w text (process_all inputs v)).
Proof. unfold process_all. now rewrite foldl_app. Qed.

Lemma command_history_process_all (inputs : list (World * string)) :
  let v := process_all inputs VoiceInterface.init in
  column "text" (command_history v) = map (fun i => Some (VStr i.2)) inputs /\
  column "intent" (command_history v)
  = map (fun i => Some (VStr (_classify_intent (lower i.2)))) inputs.
Proof.
  induction inputs as [|[w text] inputs [IHt IHi]] using rev_ind.
  - split; reflexivity.
  - cbv zeta. rewrite process_all_snoc, command_history_process_command.
    unfold column in *. rewrite !map_app, IHt, IHi. split; reflexivity.
Qed.

Lemma map_drop {A B : Type} (f : A -> B) (n : nat) (l : list A) :
  map f (drop n l) = drop n (map f l).
Proof.
  revert n. induction l as [|x l IH]; intros [|n]; simpl; auto.
Qed.

(** X12. The command history of the voice interface is a log: after any
    sequence of [process_command] calls it has one entry per call, in call
    order, holding the text as typed and the detected intent; and
    [get_command_history] with a positive limit returns the last [limit]
    entries of it (all of them when there are fewer). *)
Theorem command_history_log (inputs : list (World * string)) (limit : nat) :
  0 < limit ->
  let v := process_all inputs VoiceInterface.init in
  column "text" (command_history v) = map (fun i => Some (VStr i.2)) inputs /\
  column "intent" (command_history v)
  = map (fun i => Some (VStr (_classify_intent (lower i.2)))) inputs /\
  get_command_history (Z.of_nat limit) v
  = drop (length inputs - limit) (command_history v) /\
  column "text" (get_command_history (Z.of_nat limit) v)
  = map (fun i => Some (VStr i.2)) (drop (length inputs - limit) inputs).
Proof.
  intros Hpos v. destruct (command_history_process_all inputs) as [Ht Hi].
  fold v in Ht, Hi.
  assert (length (command_history v) = length inputs) as Hlen.
  { rewrite <- (length_map (dict_get "text")).
    change (length (column "text" (command_history v)) = length inputs).
    now rewrite Ht, length_map. }
  assert (get_command_history (Z.of_nat limit) v
          = drop (length inputs - limit) (command_history v)) as Hget.
  { unfold get_command_history. rewrite slice_from_negative by exact Hpos.
    now rewrite Hlen. }
  split; [exact Ht|]. split; [exact Hi|]. split; [exact Hget|].
  rewrite Hget. unfold column in *.
  now rewrite !map_drop, Ht.
Qed.

Lemma command_history_log_witness :
  0 < 1 /\
  get_command_history 1
    (process_all [(example_world, "List Files"); (example_world, "hello")]
       VoiceInterface.init)
  = drop (2 - 1)
      (command_history
         (process_all [(example_world, "List Files"); (example_world, "hello")]
            VoiceInterface.init)).
Proof.
  split; [lia|].
  apply (proj1 (proj2 (proj2
    (command_history_log [(example_world, "List Files"); (example_world, "hello")]
       1 (Nat.lt_0_succ 0))))).
Defined.

(** ** The network manager *)

(** X13. [check_connectivity] never fails: whatever the three requests do,
    it returns a success envelope with one test entry per URL.  The
    ['connected'] flag is true exactly when at least one of the three URLs
    answered, and ['success_rate'] is the number of URLs that answered, over
    3; with no network at all the answer is still a success, with
    [connected] false and the rate "0/3". *)
Theorem check_connectivity_always_success (w : World) (nm : NetworkManager.t) :
  exists (d : pydict) (tests : list pyval),
    NetworkManager.check_connectivity w nm = Ret d /\
    is_success d /\
    dict_get "connected" d
    = Some (VBool (existsb (answers w) NetworkManager.test_urls)) /\
    dict_get "success_rate" d
    = Some (VStr (str_nat (length (filter (fun url => answers w url = true)
                                     NetworkManager.test_urls)) +:+ "/3")) /\
    dict_get "tests" d = Some (VList tests) /\
    length tests = 3.
Proof.
  unfold NetworkManager.check_connectivity, NetworkManager.test_urls. unfold_exn.
  eexists _, (map VDict (map (NetworkManager.probe w)
                           ["https://www.google.com";
                            "https://www.cloudflare.com";
                            "https://www.github.com"])).
  split; [reflexivity|]. split; [reflexivity|].
  unfold answers, NetworkManager.probe.
  rewrite !filter_cons, !filter_nil. simpl.
  destruct (session_get w "https://www.google.com") as [[]|];
    destruct (session_get w "https://www.cloudflare.com") as [[]|];
    destruct (session_get w "https://www.github.com") as [[]|];
    repeat split; reflexivity.
Qed.

Section Split.

Lemma split_scan_nonempty (sep : string) (skip : nat) (piece s : string) :
  split_scan sep skip piece s <> [].
Proof.
  revert skip piece. induction s as [|c s IH]; intros skip piece; simpl.
  - discriminate.
  - destruct skip as [|k]; [|apply IH].
    destruct (startswith sep (String c s)); [discriminate | apply IH].
Qed.

(** A separator that occurs in the text splits it into at least two
    pieces. *)
Lemma split_scan_two (sep piece s : string) :
  sep <> "" ->
  contains sep s = true ->
  exists a b rest, split_scan sep 0 piece s = a :: b :: rest.
Proof.
  intros Hsep. revert piece. induction s as [|c s IH]; intros piece Hin.
  - destruct sep; [congruence | discriminate].
  - change (contains sep (String c s))
      with (startswith sep (String c s) || contains sep s) in Hin.
    change (split_scan sep 0 piece (String c s))
      with (if startswith sep (String c s)
            then piece :: split_scan sep (String.length sep - 1) "" s
            else split_scan sep 0 (piece +:+ String c "") s).
    destruct (startswith sep (String c s)).
    + destruct (split_scan sep (String.length sep - 1) "" s) as [|b rest] eqn:E.
      * now apply split_scan_nonempty in E.
      * eauto.
    + apply IH. exact Hin.
Qed.

End Split.

(** X14. The weather branch of the network handler cannot fail: for every
    command whose folded text contains "weather" and not "search", and with
    the network manager available, the handler returns a success envelope
    with a simulated weather record.  Its location is "London" when the
    command has no "in"; otherwise the command splits at "in" into at least
    two pieces, so the lookup of the second piece never raises, and the
    location is that piece, stripped and title-cased. *)
Theorem weather_branch_succeeds (w : World) (command : string) :
  import_module w "core.network_manager" = Ret tt ->
  requests_Session w = Ret tt ->
  contains "search" (lower command) = false ->
  contains "weather" (lower command) = true ->
  exists (d weather : pydict) (location : string),
    _handle_network_operation w command = Ret d /\
    is_success d /\
    dict_get "source" d = Some (VStr "simulated") /\
    dict_get "weather" d = Some (VDict weather) /\
    dict_get "location" weather = Some (VStr (title location)) /\
    (contains "in" command = false -> location = "London") /\
    (contains "in" command = true ->
     exists first second rest,
       split "in" command = Ret (first :: second :: rest) /\
       location = strip second).
Proof.
  intros Himp Hsession Hsearch Hweather.
  unfold _handle_network_operation, NetworkManager.init. unfold_exn.
  rewrite Himp, Hsession, Hsearch, Hweather.
  destruct (contains "in" command) eqn:Hin.
  - destruct (split_scan_two "in" "" command) as [a [b [rest E]]];
      [discriminate | exact Hin |].
    unfold split. rewrite E. simpl.
    eexists _, _, (strip b). do 5 (split; [reflexivity|]).
    split; [discriminate|]. intros _. exists a, b, rest. split; reflexivity.
  - simpl. eexists _, _, "London". do 5 (split; [reflexivity|]).
    split; [reflexivity | discriminate].
Qed.

Lemma weather_branch_succeeds_witness :
  (import_module example_world "core.network_manager" = Ret tt /\
   requests_Session example_world = Ret tt /\
   contains "search" (lower "Weather today") = false /\
   contains "weather" (lower "Weather today") = true) /\
  exists (d weather : pydict) (location : string),
    _handle_network_operation example_world "Weather today" = Ret d /\
    is_success d /\
    dict_get "source" d = Some (VStr "simulated") /\
    dict_get "weather" d = Some (VDict weather) /\
    dict_get "location" weather = Some (VStr (title location)) /\
    (contains "in" "Weather today" = false -> location = "London") /\
    (contains "in" "Weather today" = true ->
     exists first second rest,
       split "in" "Weather today" = Ret (first :: second :: rest) /\
       location = strip second).
Proof.
  split; [repeat split; reflexivity|].
  apply (weather_branch_succeeds example_world "Weather today"); reflexivity.
Defined.

(** ** The system manager *)

(** X15. [get_system_health] never raises and reports [HEALTHY] exactly
    when it lists no warning.  When the [psutil] sample cannot be taken the
    report is [HEALTHY] with no warning.  When it can, the three tests run
    in the order cpu, memory, disk and the last one that fires sets the
    status: [WARNING] whenever the disk is above 90 percent, even if memory
    is too; [CRITICAL] when memory is above 90 and the disk is not; one
    warning is listed per exceeded measure. *)
Theorem get_system_health_status (w : World) (sm : SystemManager.t) :
  exists (d : pydict) (status : string) (warnings : list pyval),
    SystemManager.get_system_health w sm = Ret d /\
    dict_get "status" d = Some (VStr status) /\
    dict_get "warnings" d = Some (VList warnings) /\
    (status = "HEALTHY" <-> warnings = []) /\
    (forall e, psutil_sample w = Raise e -> status = "HEALTHY") /\
    (forall p, psutil_sample w = Ret p ->
       status = (if exceeds_90 (disk_percent p) then "WARNING"
                 else if exceeds_90 (memory_percent p) then "CRITICAL"
                 else if exceeds_90 (cpu_percent p) then "WARNING"
                 else "HEALTHY") /\
       length warnings
       = (if exceeds_90 (cpu_percent p) then 1 else 0)
         + (if exceeds_90 (memory_percent p) then 1 else 0)
         + (if exceeds_90 (disk_percent p) then 1 else 0)).
Proof.
  unfold SystemManager.get_system_health, SystemManager.get_system_info,
    exceeds_90.
  unfold_exn. destruct (psutil_sample w) as [p|e]; simpl.
  - destruct (Qle_bool (cpu_percent p) (Qmake 90 1)) eqn:Ec;
      destruct (Qle_bool (memory_percent p) (Qmake 90 1)) eqn:Em;
      destruct (Qle_bool (disk_percent p) (Qmake 90 1)) eqn:Ed; simpl;
      eexists _, _, _;
      (split; [reflexivity|]; split; [reflexivity|]; split; [reflexivity|];
       split; [split; intros H; (reflexivity || discriminate H)|];
       split; [intros e H; discriminate H|];
       intros p' H; injection H as H; subst p'; rewrite Ec, Em, Ed;
       split; reflexivity).
  - eexists _, _, _.
    split; [reflexivity|]. split; [reflexivity|]. split; [reflexivity|].
    split; [split; reflexivity|]. split; [reflexivity|].
    intros p H. discriminate H.
Qed.

Lemma get_system_health_status_witness :
  psutil_sample offline_world = Raise (Exception "psutil failed") /\
  exists (d : pydict),
    SystemManager.get_system_health offline_world SystemManager.init = Ret d /\
    dict_get "status" d = Some (VStr "HEALTHY").
Proof.
  split; [reflexivity|].
  destruct (get_system_health_status offline_world SystemManager.init)
    as [d [status [warnings [Hd [Hs [_ [_ [Hfail _]]]]]]]].
  exists d. split; [exact Hd|].
  rewrite Hs, (Hfail _ eq_refl). reflexivity.
Defined.

(** X16. The [process] branch of the system handler reports success even
    when the processes cannot be listed: with the system manager importable
    and a folded command that contains "process" and not "status", the
    handler returns [success: True] with the list of [psutil], and when
    [psutil] raises [e] the list is the single entry [{'error': str(e)}]. *)
Theorem process_branch_always_success (w : World) (command : string) :
  import_module w "core.system_manager" = Ret tt ->
  contains "status" (lower command) = false ->
  contains "process" (lower command) = true ->
  exists processes : list pyval,
    _handle_system_operation w command
    = Ret [("success", VBool true); ("processes", VList processes)] /\
    (forall l, psutil_processes w 20 = Ret l -> processes = l) /\
    (forall e, psutil_processes w 20 = Raise e ->
       processes = [VDict [("error", VStr (str e))]]).
Proof.
  intros Himp Hstatus Hprocess.
  unfold _handle_system_operation, SystemManager.get_running_processes.
  unfold_exn. rewrite Himp, Hstatus, Hprocess.
  destruct (psutil_processes w 20) as [l|e]; eexists;
    (split; [reflexivity|]; split; intros x H;
     solve [discriminate H | now injection H as <-]).
Qed.

Lemma process_branch_always_success_witness :
  (import_module offline_world "core.system_manager" = Ret tt /\
   contains "status" (lower "list processes") = false /\
   contains "process" (lower "list processes") = true) /\
  exists processes : list pyval,
    _handle_system_operation offline_world "list processes"
    = Ret [("success", VBool true); ("processes", VList processes)] /\
    (forall l, psutil_processes offline_world 20 = Ret l -> processes = l) /\
    (forall e, psutil_processes offline_world 20 = Raise e ->
       processes = [VDict [("error", VStr (str e))]]).
Proof.
  split; [repeat split; reflexivity|].
  apply (process_branch_always_success offline_world "list processes");
    reflexivity.
Defined.

(** ** The file manager *)

Import FileOps.

(** X17. [read_file] never raises and always returns an envelope.  It is a
    success exactly when the path exists, is not a directory, has a size of
    at most 1048576 bytes and can be read, and then the envelope holds the
    text read and the size.  A larger file is refused with "File too large
    to read" whatever reading it would have given. *)
Theorem read_file_outcomes (w : World) (fs : Files) (file_path : string) :
  exists d : pydict,
    read_file w fs file_path = Ret d /\
    envelope d /\
    (is_success d <->
     os_path_exists w file_path = true /\
     os_path_isdir fs file_path = false /\
     exists (size : Z) (content : string),
       os_path_getsize fs file_path = Ret size /\
       (size <= 1048576)%Z /\
       read_text fs file_path = Ret content /\
       dict_get "content" d = Some (VStr content) /\
       dict_get "size" d = Some (VInt size)) /\
    (forall size : Z,
       os_path_exists w file_path = true ->
       os_path_isdir fs file_path = false ->
       os_path_getsize fs file_path = Ret size ->
       (1048576 < size)%Z ->
       d = [("success", VBool false); ("error", VStr "File too large to read")]).
Proof.
  unfold read_file. unfold_exn.
  destruct (os_path_exists w file_path) eqn:Ex; simpl.
  2: { eexists. split; [reflexivity|]. split; [now exists false|].
       split; [split; [discriminate | intros [H _]; discriminate H]|].
       intros size H. discriminate H. }
  destruct (os_path_isdir fs file_path) eqn:Ed; simpl.
  { eexists. split; [reflexivity|]. split; [now exists false|].
    split; [split; [discriminate | intros [_ [H _]]; discriminate H]|].
    intros size _ H. discriminate H. }
  destruct (os_path_getsize fs file_path) as [size|e] eqn:Es; simpl.
  2: { eexists. split; [reflexivity|]. split; [now exists false|].
       split; [split; [discriminate|]|].
       - intros [_ [_ [sz [c [H _]]]]]. discriminate H.
       - intros sz _ _ H. discriminate H. }
  change (1024 * 1024)%Z with 1048576%Z.
  destruct (Z.ltb_spec 1048576 size) as [Hbig|Hsmall].
  { eexists. split; [reflexivity|]. split; [now exists false|].
    split; [split; [discriminate|]|].
    - intros [_ [_ [sz [c [H [Hle _]]]]]]. injection H as <-. lia.
    - reflexivity. }
  destruct (read_text fs file_path) as [content|e] eqn:Er; simpl.
  - eexists. split; [reflexivity|]. split; [now exists true|]. split.
    + split; [|reflexivity]. intros _.
      repeat split. exists size, content. repeat split. exact Hsmall.
    + intros sz _ _ H Hlt. injection H as <-. lia.
  - eexists. split; [reflexivity|]. split; [now exists false|]. split.
    + split; [discriminate|].
      intros [_ [_ [sz [c [_ [_ [H _]]]]]]]. discriminate H.
    + intros sz _ _ H Hlt. injection H as <-. lia.
Qed.

Lemma read_file_outcomes_witness :
  (os_path_exists example_world "/etc/motd" = true /\
   os_path_isdir example_files "/etc/motd" = false) /\
  is_success
    [("success", VBool true); ("content", VStr "hello");
     ("size", VInt 1048576); ("encoding", VStr "utf-8")] /\
  read_file example_world example_files "/etc/motd"
  = Ret [("success", VBool true); ("content", VStr "hello");
         ("size", VInt 1048576); ("encoding", VStr "utf-8")].
Proof.
  split; [split; reflexivity|].
  destruct (read_file_outcomes example_world example_files "/etc/motd")
    as [d [Hd [_ [Hiff _]]]].
  assert (d = [("success", VBool true); ("content", VStr "hello");
               ("size", VInt 1048576); ("encoding", VStr "utf-8")]) as ->.
  { change (read_file example_world example_files "/etc/motd")
      with (@Ret pydict [("success", VBool true); ("content", VStr "hello");
                         ("size", VInt 1048576); ("encoding", VStr "utf-8")])
      in Hd.
    now injection Hd as <-. }
  split; [|reflexivity].
  apply (proj2 Hiff). repeat split.
  exists 1048576%Z, "hello". repeat split. lia.
Defined.

Lemma change_all_cons (w : World) (fs : Files) (p : string) (paths : list string)
    (fm : FileManager.t) :
  change_all w fs (p :: paths) fm
  = change_all w fs paths (fst (change_directory w fs p fm)).
Proof. reflexivity. Qed.

(** X18. [change_directory] keeps a trail: a call that is refused (the path
    does not exist or is not a directory) leaves the manager as it was, and
    after any sequence of calls the history followed by the current path is
    the old history, the old current path and then the accepted paths in
    call order. *)
Theorem change_directory_trail (w : World) (fs : Files) (paths : list string)
    (fm : FileManager.t) :
  let fm' := change_all w fs paths fm in
  (FileManager.history fm' ++ [FileManager.current_path fm']
   = FileManager.history fm ++ [FileManager.current_path fm]
     ++ List.filter (is_directory w fs) paths) /\
  (forall p : string,
     is_directory w fs p = false -> fst (change_directory w fs p fm) = fm).
Proof.
  split.
  - revert fm. induction paths as [|p paths IH]; intros fm; [reflexivity|].
    rewrite change_all_cons, IH. clear IH.
    unfold change_directory, is_directory. simpl.
    destruct (os_path_exists w p); simpl; [|reflexivity].
    destruct (os_path_isdir fs p); simpl; [|reflexivity].
    now rewrite <- !app_assoc.
  - intros p. unfold change_directory, is_directory.
    destruct (os_path_exists w p); simpl; [|reflexivity].
    destruct (os_path_isdir fs p); [discriminate | reflexivity].
Qed.

Lemma change_directory_trail_witness :
  is_directory example_world example_files "/nowhere" = false /\
  fst (change_directory example_world example_files "/nowhere"
         {| FileManager.current_path := "/home/user";
            FileManager.history := []; FileManager.bookmarks := [] |})
  = {| FileManager.current_path := "/home/user";
       FileManager.history := []; FileManager.bookmarks := [] |}.
Proof.
  split; [reflexivity|].
  apply (proj2 (change_directory_trail example_world example_files []
                  {| FileManager.current_path := "/home/user";
                     FileManager.history := [];
                     FileManager.bookmarks := [] |})).
  reflexivity.
Defined.

(** X19. Listing after a change of directory lists the new directory: when
    [change_directory] to a path succeeds, [list_directory] without an
    argument, in the same environment, never answers "Path does not exist";
    it returns either a success whose ['path'] is the new path or the
    failure for the error that scanning that directory raised. *)
Theorem list_after_change_directory (w : World) (fs : Files) (p : string)
    (fm : FileManager.t) (d0 : pydict) :
  snd (change_directory w fs p fm) = Ret d0 ->
  is_success d0 ->
  let fm' := fst (change_directory w fs p fm) in
  FileManager.current_path fm' = p /\
  exists d : pydict,
    FileManager.list_directory w fm' None = Ret d /\
    (is_success d /\ dict_get "path" d = Some (VStr p) /\
     (exists items summary, os_listdir w p = Ret (items, summary)) \/
     exists e, os_listdir w p = Raise e /\ d = failure e).
Proof.
  unfold change_directory.
  destruct (os_path_exists w p) eqn:Ex; simpl.
  2: { intros H. injection H as <-. discriminate. }
  destruct (os_path_isdir fs p); simpl.
  2: { intros H. injection H as <-. discriminate. }
  intros _ _. split; [reflexivity|].
  unfold FileManager.list_directory. unfold_exn. simpl. rewrite Ex. simpl.
  destruct (os_listdir w p) as [[items summary]|e]; eexists;
    (split; [reflexivity|]).
  - left. repeat split. eauto.
  - right. eauto.
Qed.

Lemma list_after_change_directory_witness :
  (snd (change_directory example_world example_files "/tmp"
          {| FileManager.current_path := "/home/user";
             FileManager.history := []; FileManager.bookmarks := [] |})
   = Ret [("success", VBool true); ("message", VStr "Changed to: /tmp")] /\
   is_success [("success", VBool true); ("message", VStr "Changed to: /tmp")]) /\
  FileManager.current_path
    (fst (change_directory example_world example_files "/tmp"
            {| FileManager.current_path := "/home/user";
               FileManager.history := []; FileManager.bookmarks := [] |}))
  = "/tmp".
Proof.
  split; [split; reflexivity|].
  apply (list_after_change_directory example_world example_files "/tmp"
           {| FileManager.current_path := "/home/user";
              FileManager.history := []; FileManager.bookmarks := [] |}
           [("success", VBool true); ("message", VStr "Changed to: /tmp")]);
    reflexivity.
Defined.

(** ** The terminal *)

Section Strip.

Lemma lstrip_no_lead (s : string) : no_lead (lstrip s).
Proof.
  induction s as [|c s IH]; simpl; [exact I|].
  destruct (is_space c) eqn:E; [exact IH | exact E].
Qed.

Lemma lstrip_id (s : string) : no_lead s -> lstrip s = s.
Proof. destruct s as [|c s]; simpl; [reflexivity | now intros ->]. Qed.

Lemma rstrip_no_lead (s : string) : no_lead s -> no_lead (rstrip s).
Proof.
  destruct s as [|c s]; simpl; [exact id|]. intros Hc.
  destruct (rstrip s); [rewrite Hc|]; exact Hc.
Qed.

Lemma rstrip_idempotent (s : string) : rstrip (rstrip s) = rstrip s.
Proof.
  induction s as [|c s IH]; simpl; [reflexivity|].
  destruct (rstrip s) as [|d r] eqn:E.
  - destruct (is_space c) eqn:Ec; simpl; [reflexivity | now rewrite Ec].
  - change (rstrip (String c (String d r)))
      with (match rstrip (String d r) with
            | EmptyString =>
                if is_space c then EmptyString else String c EmptyString
            | r' => String c r'
            end).
    now rewrite IH.
Qed.

Lemma strip_idempotent (s : string) : strip (strip s) = strip s.
Proof.
  unfold strip.
  rewrite (lstrip_id (rstrip (lstrip s)))
    by apply rstrip_no_lead, lstrip_no_lead.
  apply rstrip_idempotent.
Qed.

End Strip.

Section Terminal.

Import TerminalEmulator.

Lemma session_snoc (keys : list Key) (k : Key) :
  session (keys ++ [k]) = press (session keys) k.
Proof. unfold session. now rewrite foldl_app. Qed.

Lemma index_in_bounds {A : Type} (l : list A) (i : Z) :
  (0 <= i < Z.of_nat (length l))%Z ->
  exists x, index l i = Ret x /\ l !! Z.to_nat i = Some x.
Proof.
  intros Hi. unfold index, list_item.
  destruct (Z.ltb_spec i 0) as [H|_]; [lia|].
  destruct (Z.ltb_spec i 0) as [H|_]; [lia|].
  destruct (l !! Z.to_nat i) as [x|] eqn:E; [eauto|].
  apply lookup_ge_None in E. lia.
Qed.

Lemma truthy_history (l : list string) :
  truthy (VList (map VStr l)) = match l with [] => false | _ => true end.
Proof. now destruct l. Qed.

(** One press of Up in the middle of the history. *)
Lemma previous_command_step (term : t) :
  (0 < history_index term <= Z.of_nat (length (command_history term)))%Z ->
  exists c,
    command_history term !! Z.to_nat (history_index term - 1) = Some c /\
    previous_command term
    = (set_index_entry (history_index term - 1) c term, Ret tt).
Proof.
  intros Hi. unfold previous_command. rewrite truthy_history.
  destruct (command_history term) as [|c0 l] eqn:El; [simpl in Hi; lia|].
  destruct (Z.ltb_spec 0 (history_index term)) as [_|H]; [|lia].
  simpl andb. cbv iota.
  destruct (index_in_bounds (c0 :: l) (history_index term - 1)) as [c [-> Hc]];
    [lia|].
  exists c. split; [exact Hc | reflexivity].
Qed.

(** One press of Down before the last command. *)
Lemma next_command_step (term : t) :
  (0 <= history_index term < Z.of_nat (length (command_history term)) - 1)%Z ->
  exists c,
    command_history term !! Z.to_nat (history_index term + 1) = Some c /\
    next_command term
    = (set_index_entry (history_index term + 1) c term, Ret tt).
Proof.
  intros Hi. unfold next_command. rewrite truthy_history.
  destruct (command_history term) as [|c0 l] eqn:El; [simpl in Hi; lia|].
  destruct (Z.ltb_spec (history_index term) (Z.of_nat (length (c0 :: l)) - 1))
    as [_|H]; [|lia].
  simpl andb. cbv iota.
  destruct (index_in_bounds (c0 :: l) (history_index term + 1)) as [c [-> Hc]];
    [lia|].
  exists c. split; [exact Hc | reflexivity].
Qed.

(** Down on the last command or at the prompt. *)
Lemma next_command_end (term : t) :
  (Z.of_nat (length (command_history term)) - 1 <= history_index term)%Z ->
  next_command term
  = (set_index_entry (Z.of_nat (length (command_history term))) "" term, Ret tt).
Proof.
  intros Hi. unfold next_command.
  destruct (Z.ltb_spec (history_index term)
              (Z.of_nat (length (command_history term)) - 1)) as [H|_]; [lia|].
  now rewrite andb_false_r.
Qed.

Lemma execute_command_cases (term : t) :
  (strip (command_entry term) = "" /\ execute_command term = (term, None)) \/
  (strip (command_entry term) <> "" /\
   exists term',
     execute_command term = (term', Some (strip (command_entry term))) /\
     command_history term'
     = command_history term ++ [strip (command_entry term)] /\
     history_index term' = Z.of_nat (length (command_history term) + 1) /\
     command_entry term' = "" /\
     output_area term'
     = output_area term +:+ ("$ " +:+ strip (command_entry term) +:+ nl)).
Proof.
  unfold execute_command. simpl truthy.
  destruct (String.eqb_spec (strip (command_entry term)) "") as [E|E].
  - left. rewrite E. simpl. auto.
  - right. split; [exact E|]. simpl. eexists. split; [reflexivity|].
    simpl. rewrite length_app. auto.
Qed.

Lemma press_in_range (term : t) (k : Key) :
  index_in_range term -> index_in_range (press term k).
Proof.
  unfold index_in_range. intros Hr. destruct k; cbn [press].
  - exact Hr.
  - destruct (execute_command_cases term) as [[_ ->] | [_ [t' [-> [Hh [Hi _]]]]]];
      simpl; [exact Hr|].
    rewrite Hh, Hi, length_app. simpl. lia.
  - destruct (Z.le_gt_cases (history_index term) 0) as [Hle | Hgt].
    + unfold previous_command.
      destruct (Z.ltb_spec 0 (history_index term)) as [H|_]; [lia|].
      rewrite andb_false_r. exact Hr.
    + destruct (previous_command_step term) as [c [_ ->]]; [lia|]. simpl. lia.
  - destruct (Z.lt_ge_cases (history_index term)
                (Z.of_nat (length (command_history term)) - 1)) as [Hlt | Hge].
    + destruct (next_command_step term) as [c [_ ->]]; [lia|]. simpl. lia.
    + rewrite next_command_end by lia. simpl. lia.
Qed.

Lemma session_in_range (keys : list Key) : index_in_range (session keys).
Proof.
  induction keys as [|k keys IH] using rev_ind.
  - unfold index_in_range. simpl. lia.
  - rewrite session_snoc. now apply press_in_range.
Qed.

(** X20. In every state the terminal can reach through key presses the
    history index lies between 0 and the length of the history, and
    therefore the Up and Down handlers never raise: the history is always
    read inside its bounds. *)
Theorem terminal_index_in_range (keys : list Key) :
  let term := session keys in
  (0 <= history_index term <= Z.of_nat (length (command_history term)))%Z /\
  snd (previous_command term) = Ret tt /\
  snd (next_command term) = Ret tt.
Proof.
  intros term. pose proof (session_in_range keys) as Hr. fold term in Hr.
  unfold index_in_range in Hr. split; [exact Hr|]. split.
  - destruct (Z.le_gt_cases (history_index term) 0) as [Hle | Hgt].
    + unfold previous_command.
      destruct (Z.ltb_spec 0 (history_index term)) as [H|_]; [lia|].
      now rewrite andb_false_r.
    + destruct (previous_command_step term) as [c [_ ->]]; [lia | reflexivity].
  - destruct (Z.lt_ge_cases (history_index term)
                (Z.of_nat (length (command_history term)) - 1)) as [Hlt | Hge].
    + destruct (next_command_step term) as [c [_ ->]]; [lia | reflexivity].
    + now rewrite next_command_end by lia.
Qed.

Lemma press_history_stripped (term : t) (k : Key) :
  Forall (fun c => c <> "" /\ strip c = c) (command_history term) ->
  Forall (fun c => c <> "" /\ strip c = c) (command_history (press term k)).
Proof.
  intros H. destruct k; cbn [press]; try exact H.
  - destruct (execute_command_cases term) as [[_ ->] | [Hne [t' [-> [Hh _]]]]];
      simpl; [exact H|].
    rewrite Hh. apply Forall_app. split; [exact H|].
    constructor; [|constructor]. split; [exact Hne | apply strip_idempotent].
  - unfold previous_command.
    destruct (truthy _ && _); [|exact H].
    now destruct (index (command_history term) (history_index term - 1)).
  - unfold next_command.
    destruct (truthy _ && _); [|exact H].
    now destruct (index (command_history term) (history_index term + 1)).
Qed.

(** X21. The terminal stores commands stripped: in every reachable state no
    entry of the command history is empty or has white space at either end,
    and pressing Return on an entry that is blank changes nothing (the entry
    is not cleared and no command is run). *)
Theorem terminal_history_stripped (keys : list Key) :
  Forall (fun c => c <> "" /\ strip c = c) (command_history (session keys)) /\
  (forall term : t,
     strip (command_entry term) = "" -> execute_command term = (term, None)).
Proof.
  split.
  - induction keys as [|k keys IH] using rev_ind; [constructor|].
    rewrite session_snoc. now apply press_history_stripped.
  - intros term E.
    destruct (execute_command_cases term) as [[_ H] | [Hne _]];
      [exact H | contradiction].
Qed.

Lemma terminal_history_stripped_witness :
  strip (command_entry (session [Type_ "   "])) = "" /\
  execute_command (session [Type_ "   "]) = (session [Type_ "   "], None).
Proof.
  split; [reflexivity|].
  apply (proj2 (terminal_history_stripped [])). reflexivity.
Defined.

End Terminal.

Section TerminalKeys.

Import TerminalEmulator.

Lemma press_Up_step (term : t) :
  (0 < history_index term <= Z.of_nat (length (command_history term)))%Z ->
  exists c,
    command_history term !! Z.to_nat (history_index term - 1) = Some c /\
    press term Up = set_index_entry (history_index term - 1) c term.
Proof.
  intros Hi. destruct (previous_command_step term Hi) as [c [Hc E]].
  exists c. split; [exact Hc|]. cbn [press]. now rewrite E.
Qed.

(** Up pressed [k + 1] times with at least that many commands above. *)
Lemma press_Up_many (k : nat) (term : t) :
  (Z.of_nat (S k) <= history_index term
   <= Z.of_nat (length (command_history term)))%Z ->
  exists c,
    command_history term !! Z.to_nat (history_index term - Z.of_nat (S k))
    = Some c /\
    foldl press term (replicate (S k) Up)
    = set_index_entry (history_index term - Z.of_nat (S k)) c term.
Proof.
  revert term. induction k as [|k IH]; intros term Hi.
  - destruct (press_Up_step term) as [c [Hc E]]; [lia|].
    exists c. split; [exact Hc|]. simpl. exact E.
  - destruct (press_Up_step term) as [c0 [_ E0]]; [lia|].
    change (foldl press term (replicate (S (S k)) Up))
      with (foldl press (press term Up) (replicate (S k) Up)).
    rewrite E0.
    destruct (IH (set_index_entry (history_index term - 1) c0 term))
      as [c [Hc E]]; [simpl; lia|].
    simpl history_index in Hc, E. simpl command_history in Hc.
    replace (history_index term - 1 - Z.of_nat (S k))%Z
      with (history_index term - Z.of_nat (S (S k)))%Z in Hc, E by lia.
    exists c. split; [exact Hc|]. rewrite E. reflexivity.
Qed.

(** Down pressed often enough to pass the last command. *)
Lemma press_Down_many (j : nat) (term : t) :
  (0 <= history_index term <= Z.of_nat (length (command_history term)))%Z ->
  (Z.of_nat (length (command_history term)) - history_index term
   <= Z.of_nat (S j))%Z ->
  foldl press term (replicate (S j) Down)
  = set_index_entry (Z.of_nat (length (command_history term))) "" term.
Proof.
  revert term. induction j as [|j IH]; intros term Hr Hj.
  - simpl. now rewrite next_command_end by lia.
  - change (foldl press term (replicate (S (S j)) Down))
      with (foldl press (press term Down) (replicate (S j) Down)).
    cbn [press].
    destruct (Z.lt_ge_cases (history_index term)
                (Z.of_nat (length (command_history term)) - 1)) as [Hlt | Hge].
    + destruct (next_command_step term) as [c [_ ->]]; [lia|].
      cbn [fst]. rewrite IH; [reflexivity | simpl; lia | simpl; lia].
    + rewrite next_command_end by lia.
      cbn [fst]. rewrite IH; [reflexivity | simpl; lia | simpl; lia].
Qed.

(** X22. Up recalls the history backwards: from a fresh prompt, pressing Up
    [k + 1] times, with more than [k] commands in the history, puts the
    command that is [k] places before the last one into the entry, and
    changes neither the history nor the output.  At the oldest command Up
    does nothing. *)
Theorem terminal_up_recalls (term : t) (k : nat) :
  at_prompt term ->
  k < length (command_history term) ->
  let term' := foldl press term (replicate (S k) Up) in
  command_history term !! (length (command_history term) - 1 - k)
  = Some (command_entry term') /\
  history_index term' = Z.of_nat (length (command_history term) - 1 - k) /\
  command_history term' = command_history term /\
  output_area term' = output_area term /\
  (history_index term' = 0%Z -> press term' Up = term').
Proof.
  unfold at_prompt. intros Hp Hk.
  destruct (press_Up_many k term) as [c [Hc E]]; [lia|].
  cbv zeta. rewrite E. simpl. rewrite Hp in *.
  replace (Z.to_nat (Z.of_nat (length (command_history term)) - Z.of_nat (S k)))
    with (length (command_history term) - 1 - k) in Hc by lia.
  split; [exact Hc|]. split; [lia|]. split; [reflexivity|].
  split; [reflexivity|].
  intros H0. unfold previous_command. simpl history_index. rewrite H0.
  now rewrite andb_false_r.
Qed.

Lemma terminal_up_recalls_witness :
  (at_prompt (session [Type_ "ls"; Return; Type_ " pwd "; Return]) /\
   1 < length (command_history
                 (session [Type_ "ls"; Return; Type_ " pwd "; Return]))) /\
  command_history (session [Type_ "ls"; Return; Type_ " pwd "; Return]) !! 0
  = Some (command_entry
            (foldl press (session [Type_ "ls"; Return; Type_ " pwd "; Return])
               [Up; Up])).
Proof.
  split; [split; [reflexivity | simpl; lia]|].
  exact (proj1 (terminal_up_recalls
                  (session [Type_ "ls"; Return; Type_ " pwd "; Return])
                  1 eq_refl (Nat.lt_succ_diag_r 1))).
Defined.

(** X23. Going up and coming back down: from a fresh prompt, [k + 1] presses
    of Up followed by [k + 1] presses of Down, with more than [k] commands in
    the history, end at the prompt again with an empty entry; history and
    output are as before. *)
Theorem terminal_up_down_round_trip (term : t) (k : nat) :
  at_prompt term ->
  k < length (command_history term) ->
  foldl press term (replicate (S k) Up ++ replicate (S k) Down)
  = set_index_entry (Z.of_nat (length (command_history term))) "" term.
Proof.
  unfold at_prompt. intros Hp Hk. rewrite foldl_app.
  destruct (press_Up_many k term) as [c [_ ->]]; [lia|].
  rewrite press_Down_many; [reflexivity | simpl; lia | simpl; lia].
Qed.

Lemma terminal_up_down_round_trip_witness :
  (at_prompt (session [Type_ "ls"; Return; Type_ "pwd"; Return]) /\
   1 < length (command_history
                 (session [Type_ "ls"; Return; Type_ "pwd"; Return]))) /\
  foldl press (session [Type_ "ls"; Return; Type_ "pwd"; Return])
    [Up; Up; Down; Down]
  = session [Type_ "ls"; Return; Type_ "pwd"; Return].
Proof.
  split; [split; [reflexivity | simpl; lia]|].
  exact (terminal_up_down_round_trip
           (session [Type_ "ls"; Return; Type_ "pwd"; Return]) 1 eq_refl
           (Nat.lt_succ_diag_r 1)).
Defined.

End TerminalKeys.

(** ** The pipeline of the desktop *)

Section Pipeline.

Import Desktop.





End Pipeline.

Section PipelineBranches.

Import Desktop.

Variables (w : World) (command : string).
Variables (voice : VoiceInterface.t) (orchestrator : AIOrchestrator.t).



End PipelineBranches.


